(** * maf_2_the_max: the agent-framework samples, embedded and verified

    The repository is a set of Python sample scripts written against the
    [agent_framework] SDK.  This development embeds the functions of the
    samples that carry logic of their own (workflow executors and edge
    conditions, the chat middleware, the custom message store, the payment
    tools and the user-info context provider) and proves the properties the
    specification states about them.

    Layout: part I holds the embedding, one module per source file, preceded
    by a small model of the Python values and effects the samples use and by
    the workflow runner; part II holds the theorems. *)

From Stdlib Require Import String Ascii List Bool Arith ZArith Lia.
From Stdlib Require Import Floats DecimalString.
Import ListNotations.

Set Implicit Arguments.
Local Open Scope string_scope.
Local Open Scope list_scope.

(* ===================================================================== *)
(** * Part I: the embedding *)
(* ===================================================================== *)

(** ** Python values and effects *)

Module Py.

(** Python [str] is modelled by [string]; the case mappings below are those
    of [str.upper] and [str.lower] on ASCII text, every other character is
    left as it is. *)

Definition is_ascii_lower (c : ascii) : bool :=
  Nat.leb 97 (nat_of_ascii c) && Nat.leb (nat_of_ascii c) 122.

Definition is_ascii_upper (c : ascii) : bool :=
  Nat.leb 65 (nat_of_ascii c) && Nat.leb (nat_of_ascii c) 90.

Definition upper_char (c : ascii) : ascii :=
  if is_ascii_lower c then ascii_of_nat (nat_of_ascii c - 32) else c.

Definition lower_char (c : ascii) : ascii :=
  if is_ascii_upper c then ascii_of_nat (nat_of_ascii c + 32) else c.

(** [s.upper()] *)
Fixpoint upper (s : string) : string :=
  match s with
  | EmptyString => EmptyString
  | String c s' => String (upper_char c) (upper s')
  end.

(** [s.lower()] *)
Fixpoint lower (s : string) : string :=
  match s with
  | EmptyString => EmptyString
  | String c s' => String (lower_char c) (lower s')
  end.

(** [s[::-1]] *)
Fixpoint reversed (s : string) : string :=
  match s with
  | EmptyString => EmptyString
  | String c s' => reversed s' ++ String c EmptyString
  end.

(** [sub in s] for two strings: [sub] occurs in [s] at some offset. *)
Fixpoint contains (sub s : string) : bool :=
  match s with
  | EmptyString => prefix sub EmptyString
  | String _ s' => prefix sub s || contains sub s'
  end.

(** Truth value of a string ([if s:]): the empty string is false. *)
Definition truthy_str (s : string) : bool :=
  match s with EmptyString => false | _ => true end.

(** [sep.join(parts)] *)
Fixpoint join (sep : string) (parts : list string) : string :=
  match parts with
  | [] => EmptyString
  | [p] => p
  | p :: rest => p ++ sep ++ join sep rest
  end.

(** [str(n)] for an [int]. *)
Definition str_of_int (n : Z) : string := NilZero.string_of_int (Z.to_int n).

(** Exceptions the samples raise or catch; all of them derive from
    [Exception], so [except Exception] catches each. *)
Inductive exn : Type :=
| ValidationError (detail : string)
| RuntimeError (detail : string)
| ServiceError (detail : string)
| EOFError.

(** The result of evaluating an expression: a value or a raised exception. *)
Inductive outcome (A : Type) : Type :=
| Ret (a : A)
| Raise (e : exn).
Arguments Ret {A} a.
Arguments Raise {A} e.

(** A computation over a mutable state [S].  A raised exception keeps the
    state reached so far, as assignments made before a [raise] stay made. *)
Definition M (S A : Type) : Type := S -> outcome A * S.

Definition ret {S A} (a : A) : M S A := fun s => (Ret a, s).

Definition raise {S A} (e : exn) : M S A := fun s => (Raise e, s).

Definition bind {S A B} (c : M S A) (k : A -> M S B) : M S B :=
  fun s =>
    match c s with
    | (Ret a, s') => k a s'
    | (Raise e, s') => (Raise e, s')
    end.

(** [try: c  except Exception: h] *)
Definition try_except {S A} (c : M S A) (h : exn -> M S A) : M S A :=
  fun s =>
    match c s with
    | (Ret a, s') => (Ret a, s')
    | (Raise e, s') => h e s'
    end.

Definition get {S} : M S S := fun s => (Ret s, s).

Definition put {S} (s : S) : M S unit := fun _ => (Ret tt, s).

Definition modify {S} (f : S -> S) : M S unit := fun s => (Ret tt, f s).

(** A call that neither reads nor writes the state but may raise. *)
Definition lift {S A} (o : outcome A) : M S A := fun s => (o, s).

(** Run a computation on a component of the state. *)
Definition zoom {S T A} (proj : S -> T) (inj : T -> S -> S) (c : M T A) : M S A :=
  fun s => let (o, t) := c (proj s) in (o, inj t s).

End Py.

Import Py.

Declare Scope py_scope.
Delimit Scope py_scope with py.
Notation "x <- c ;; k" := (Py.bind c (fun x => k))
  (at level 61, c at next level, right associativity) : py_scope.
Notation "c ;;; k" := (Py.bind c (fun _ => k))
  (at level 61, right associativity) : py_scope.

(** ** The workflow runner ([WorkflowBuilder], [Workflow.run]) *)

Module Workflow.

Section Runner.

(** [World] is whatever state handlers and conditions may touch, [Msg] the
    type of messages passed along edges and [Out] the type of workflow
    outputs. *)
Variables World Msg Out : Type.

(** The two operations a handler has on its context. *)
Inductive Effect : Type :=
| SendMessage (m : Msg)
| YieldOutput (o : Out).

(** Modelled from the spec: the RunContext of section 3, "per-invocation
    mutable state threaded through a single executor call, exposing send
    message to downstream and yield final output"; the class itself is
    [agent_framework.WorkflowContext].  It records the effects of the call
    in the order they were made. *)
Definition WorkflowContext : Type := list Effect.

(** A handler runs on the world and on the context of its call. *)
Definition Handler : Type := Msg -> M (World * WorkflowContext) unit.

(** [await ctx.send_message(m)] *)
Definition send_message (m : Msg) : M (World * WorkflowContext) unit :=
  modify (fun s => (fst s, snd s ++ [SendMessage m])).

(** [await ctx.yield_output(o)] *)
Definition yield_output (o : Out) : M (World * WorkflowContext) unit :=
  modify (fun s => (fst s, snd s ++ [YieldOutput o])).

(** A call into the world from inside a handler. *)
Definition in_world {A} (c : M World A) : M (World * WorkflowContext) A :=
  zoom fst (fun w s => (w, snd s)) c.

Record Executor : Type := {
  id : string;
  handle : Handler
}.

Record Edge : Type := {
  source : string;
  target : string;
  condition : option (Msg -> M World bool)
}.

(** Modelled from the spec: the builder of section 4.3 ("register executor,
    declare start executor, add edge"); the class itself is
    [agent_framework.WorkflowBuilder].  The samples pass executor objects to
    [add_edge] and [set_start_executor], which registers them. *)
Record WorkflowBuilder : Type := {
  b_executors : list Executor;
  b_edges : list Edge;
  b_start : option string
}.

Record WorkflowGraph : Type := {
  executors : list Executor;
  edges : list Edge;
  start : string
}.

Definition new_builder : WorkflowBuilder :=
  {| b_executors := []; b_edges := []; b_start := None |}.

Definition find_executor (i : string) (xs : list Executor) : option Executor :=
  find (fun x => String.eqb (id x) i) xs.

Definition registered (i : string) (xs : list Executor) : bool :=
  match find_executor i xs with Some _ => true | None => false end.

Definition register (x : Executor) (xs : list Executor) : list Executor :=
  if registered (id x) xs then xs else xs ++ [x].

Definition add_edge (src tgt : Executor) (cond : option (Msg -> M World bool))
    (b : WorkflowBuilder) : WorkflowBuilder :=
  {| b_executors := register tgt (register src (b_executors b));
     b_edges := b_edges b ++ [{| source := id src; target := id tgt; condition := cond |}];
     b_start := b_start b |}.

Definition set_start_executor (x : Executor) (b : WorkflowBuilder) : WorkflowBuilder :=
  {| b_executors := register x (b_executors b);
     b_edges := b_edges b;
     b_start := Some (id x) |}.

(** Modelled from the spec: build-time validation of section 4.3, "start
    executor must be set; every edge endpoint must reference a registered
    executor; fails with a configuration error otherwise". *)
Definition build (b : WorkflowBuilder) : option WorkflowGraph :=
  match b_start b with
  | None => None
  | Some s =>
      if registered s (b_executors b)
         && forallb (fun e => registered (source e) (b_executors b)
                              && registered (target e) (b_executors b)) (b_edges b)
      then Some {| executors := b_executors b; edges := b_edges b; start := s |}
      else None
  end.

(** The event trace of a run. *)
Inductive Event : Type :=
| ExecutorStarted (i : string)
| ExecutorCompleted (i : string)
| ExecutorFailed (i : string) (e : exn)
| MessageDelivered (src tgt : string)
| OutputYielded (i : string) (o : Out).

Inductive RunState : Type := IDLE | IN_PROGRESS | FAILED.

Record Run : Type := {
  pending : list (string * Msg);
  outputs : list Out;
  events : list Event;
  world : World;
  state : RunState
}.

(** Modelled from the spec: section 4.2, "default (no condition) = always
    true", and "condition evaluation failures must fail closed: treat as
    condition not satisfied rather than raising". *)
Definition accepts (cond : option (Msg -> M World bool)) (m : Msg) (w : World) : bool * World :=
  match cond with
  | None => (true, w)
  | Some c =>
      match c m w with
      | (Ret b, w') => (b, w')
      | (Raise _, w') => (false, w')
      end
  end.

(** Modelled from the spec: effect application for one sent message (section
    4.4), "queues new (target, message) pairs for every edge out of the
    current executor whose condition accepts the message". *)
Fixpoint deliver (src : string) (m : Msg) (es : list Edge) (r : Run) : Run :=
  match es with
  | [] => r
  | e :: es' =>
      if String.eqb (source e) src then
        let (ok, w') := accepts (condition e) m (world r) in
        if ok then
          deliver src m es'
            {| pending := pending r ++ [(target e, m)];
               outputs := outputs r;
               events := events r ++ [MessageDelivered src (target e)];
               world := w';
               state := state r |}
        else
          deliver src m es'
            {| pending := pending r; outputs := outputs r; events := events r;
               world := w'; state := state r |}
      else deliver src m es' r
  end.

Fixpoint apply_effects (g : WorkflowGraph) (src : string) (effs : list Effect) (r : Run) : Run :=
  match effs with
  | [] => r
  | SendMessage m :: effs' => apply_effects g src effs' (deliver src m (edges g) r)
  | YieldOutput o :: effs' =>
      apply_effects g src effs'
        {| pending := pending r;
           outputs := outputs r ++ [o];
           events := events r ++ [OutputYielded src o];
           world := world r;
           state := state r |}
  end.

(** Modelled from the spec: one step of the scheduler of section 4.4.  The
    oldest pending pair is popped (FIFO), its handler runs on a fresh
    context, and the effects of the call are applied; an exception from the
    handler aborts the run and the effects of that step are dropped. *)
Definition step (g : WorkflowGraph) (r : Run) : Run :=
  match pending r with
  | [] => r
  | (i, m) :: rest =>
      match find_executor i (executors g) with
      | None =>
          {| pending := rest; outputs := outputs r; events := events r;
             world := world r; state := state r |}
      | Some x =>
          match handle x m (world r, []) with
          | (Ret _, (w', effs)) =>
              let r1 := {| pending := rest; outputs := outputs r;
                           events := events r ++ [ExecutorStarted i];
                           world := w'; state := IN_PROGRESS |} in
              let r2 := apply_effects g i effs r1 in
              {| pending := pending r2; outputs := outputs r2;
                 events := events r2 ++ [ExecutorCompleted i];
                 world := world r2; state := IN_PROGRESS |}
          | (Raise e, (w', _)) =>
              {| pending := rest; outputs := outputs r;
                 events := events r ++ [ExecutorStarted i; ExecutorFailed i e];
                 world := w'; state := FAILED |}
          end
      end
  end.

(** Modelled from the spec: the idle check of section 4.4, "when the pending
    set is empty, the run ends; the scheduler emits an idle final state".
    [fuel] bounds the number of handler calls; a run that still has pending
    work when it is used up is returned in progress. *)
Fixpoint loop (g : WorkflowGraph) (fuel : nat) (r : Run) : Run :=
  match state r with
  | IDLE | FAILED => r
  | IN_PROGRESS =>
      match pending r with
      | [] =>
          {| pending := []; outputs := outputs r; events := events r;
             world := world r; state := IDLE |}
      | _ :: _ =>
          match fuel with
          | O => r
          | S fuel' => loop g fuel' (step g r)
          end
      end
  end.

(** [workflow.run(input)]: the start executor is pending with the input. *)
Definition run (g : WorkflowGraph) (input : Msg) (w : World) (fuel : nat) : Run :=
  loop g fuel
    {| pending := [(start g, input)]; outputs := []; events := [];
       world := w; state := IN_PROGRESS |}.

(** [events.get_outputs()] and [events.get_final_state()] *)
Definition get_outputs (r : Run) : list Out := outputs r.
Definition get_final_state (r : Run) : RunState := state r.

(** The executors that were started during a run. *)
Definition started (r : Run) : list string :=
  flat_map (fun ev => match ev with ExecutorStarted i => [i] | _ => [] end) (events r).

End Runner.

Arguments SendMessage {Msg Out} m.
Arguments YieldOutput {Msg Out} o.
Arguments ExecutorStarted {Out} i.
Arguments ExecutorCompleted {Out} i.
Arguments ExecutorFailed {Out} i e.
Arguments MessageDelivered {Out} src tgt.
Arguments OutputYielded {Out} i o.
Arguments new_builder {World Msg Out}.

End Workflow.

(** ** 04-workflows/01-basic.py *)

Module Basic.

Import Workflow.

Local Open Scope py_scope.

(** The sample has no state of its own. *)
Definition World : Type := unit.

(** [UpperCase.to_upper_case] *)
Definition to_upper_case : Handler World string string :=
  fun text =>
    let result := upper text in
    send_message result.

Definition UpperCase (id : string) : Executor World string string :=
  {| id := id; handle := to_upper_case |}.

(** [reverse_text], registered as ["reverse_text_executor"] *)
Definition reverse_text_handler : Handler World string string :=
  fun text =>
    let result := reversed text in
    yield_output result.

Definition reverse_text : Executor World string string :=
  {| id := "reverse_text_executor"; handle := reverse_text_handler |}.

(** The graph built in [main]. *)
Definition upper_case : Executor World string string := UpperCase "upper_case_executor".

Definition workflow : option (WorkflowGraph World string string) :=
  build (set_start_executor upper_case (add_edge upper_case reverse_text None new_builder)).

(** [main]: [events = await workflow.run("hello world")]; a configuration
    error at build time leaves no run. *)
Definition main (fuel : nat) : option (Run World string string) :=
  match workflow with
  | Some g => Some (run g "hello world" tt fuel)
  | None => None
  end.


End Basic.


(** ** Values of the framework the samples construct and read *)

Module Framework.

Inductive Role : Type := SYSTEM | USER | ASSISTANT | TOOL.

(** [role.value] *)
Definition value (r : Role) : string :=
  match r with
  | SYSTEM => "system"
  | USER => "user"
  | ASSISTANT => "assistant"
  | TOOL => "tool"
  end.

Record ChatMessage : Type := {
  role : Role;
  text : string
}.

Record ChatResponse : Type := {
  messages : list ChatMessage
}.

End Framework.

(** ** 04-workflows/03-control_flow.py *)

Module ControlFlow.

Import Workflow.

Local Open Scope py_scope.

Definition nl : string := String (ascii_of_nat 10) EmptyString.

Record AgentRunResponse : Type := {
  text : string
}.

Record AgentExecutorRequest : Type := {
  messages : list Framework.ChatMessage;
  should_respond : bool
}.

Record AgentExecutorResponse : Type := {
  executor_id : string;
  agent_run_response : AgentRunResponse
}.

(** What may travel along an edge ([message: Any]): a request or a response
    of an agent executor, or a value of another type. *)
Inductive Any : Type :=
| Request (r : AgentExecutorRequest)
| Response (r : AgentExecutorResponse)
| Str (s : string)
| NoneType.

(** [isinstance(message, AgentExecutorResponse)] *)
Definition isinstance_AgentExecutorResponse (message : Any) : bool :=
  match message with Response _ => true | _ => false end.

Record DetectionResult : Type := {
  is_spam : bool;
  reason : string;
  email_content : string
}.

Record EmailResponse : Type := {
  response : string
}.

Section Sample.

(** The state the two agents live in. *)
Variable World : Type.

(** [DetectionResult.model_validate_json] and
    [EmailResponse.model_validate_json] are pydantic's: a function of the
    text that returns the validated model or raises [ValidationError]. *)
Variable DetectionResult_model_validate_json : string -> outcome DetectionResult.
Variable EmailResponse_model_validate_json : string -> outcome EmailResponse.

(** The two agents created in [main]: [Agent.run] of the external client. *)
Variable spam_detection_agent_client : list Framework.ChatMessage -> M World AgentRunResponse.
Variable email_assistant_agent_client : list Framework.ChatMessage -> M World AgentRunResponse.

(** [get_condition(expected_result)] returns [condition]. *)
Definition get_condition (expected_result : bool) : Any -> M World bool :=
  fun message =>
    match message with
    | Response r =>
        try_except
          (detection <- lift (DetectionResult_model_validate_json (text (agent_run_response r))) ;;
           ret (Bool.eqb (is_spam detection) expected_result))
          (fun _ => ret false)
    | _ =>
        (* not isinstance(message, AgentExecutorResponse) *)
        ret true
    end.

Definition Ctx : Type := (World * WorkflowContext Any string)%type.

(** [handle_email_response], registered as ["send_email"] *)
Definition handle_email_response (response : AgentExecutorResponse) : M Ctx unit :=
  email_response <- lift (EmailResponse_model_validate_json (text (agent_run_response response))) ;;
  yield_output ("Email sent:" ++ nl ++ ControlFlow.response email_response)%string.

(** [handle_spam_classifier_response], registered as ["handle_spam"] *)
Definition handle_spam_classifier_response (response : AgentExecutorResponse) : M Ctx unit :=
  detection <- lift (DetectionResult_model_validate_json (text (agent_run_response response))) ;;
  if is_spam detection then
    yield_output ("Email marked as spam: " ++ reason detection)%string
  else
    raise (RuntimeError "This executor should only handle spam messages.").

(** [to_email_assistant_request] *)
Definition to_email_assistant_request (response : AgentExecutorResponse) : M Ctx unit :=
  detection <- lift (DetectionResult_model_validate_json (text (agent_run_response response))) ;;
  let user_msg := {| Framework.role := Framework.USER; Framework.text := email_content detection |} in
  send_message (Request {| messages := [user_msg]; should_respond := true |}).

(** Modelled from the spec: [@executor(id=...)] on a function whose input is
    annotated [AgentExecutorResponse]; the decorator is the framework's.  A
    message of another type has no handler in the executor. *)
Definition executor (id : string) (f : AgentExecutorResponse -> M Ctx unit)
    : Executor World Any string :=
  {| id := id;
     handle := fun message =>
       match message with
       | Response r => f r
       | _ => ret tt
       end |}.

(** Modelled from the spec: the agent-as-executor adapter of section 4.5;
    the class itself is [agent_framework.AgentExecutor].  "On receipt of a
    request message (conversation turns plus a flag indicating whether a
    response is expected), it invokes the external agent's run operation,
    and on completion emits a response message carrying the agent's reply";
    a failure of the call is an exception of the handler. *)
Definition AgentExecutor (agent : list Framework.ChatMessage -> M World AgentRunResponse)
    (id : string) : Executor World Any string :=
  {| id := id;
     handle := fun message =>
       match message with
       | Request req =>
           if should_respond req then
             reply <- in_world (agent (messages req)) ;;
             send_message (Response {| executor_id := id; agent_run_response := reply |})
           else ret tt
       | _ => ret tt
       end |}.

Definition send_email : Executor World Any string :=
  executor "send_email" handle_email_response.

Definition handle_spam : Executor World Any string :=
  executor "handle_spam" handle_spam_classifier_response.

Definition to_email_assistant_request_executor : Executor World Any string :=
  executor "to_email_assistant_request" to_email_assistant_request.

Definition spam_detection_agent : Executor World Any string :=
  AgentExecutor spam_detection_agent_client "spam_detection_agent".

Definition email_assistant_agent : Executor World Any string :=
  AgentExecutor email_assistant_agent_client "email_assistant_agent".

(** The graph built in [main], edge by edge in the order of the source. *)
Definition workflow : option (WorkflowGraph World Any string) :=
  let b := new_builder in
  let b := set_start_executor spam_detection_agent b in
  let b := add_edge spam_detection_agent to_email_assistant_request_executor
             (Some (get_condition false)) b in
  let b := add_edge to_email_assistant_request_executor email_assistant_agent None b in
  let b := add_edge email_assistant_agent send_email None b in
  let b := add_edge spam_detection_agent handle_spam (Some (get_condition true)) b in
  build b.

(** [workflow.run(request)] for a request holding one user message. *)
Definition run_email (email : string) (w : World) (fuel : nat) : option (Run World Any string) :=
  match workflow with
  | Some g =>
      let request :=
        Request {| messages := [{| Framework.role := Framework.USER; Framework.text := email |}];
                   should_respond := true |} in
      Some (run g request w fuel)
  | None => None
  end.

End Sample.

(** The message can be read as a structured [DetectionResult]. *)
Definition interpretable (parse : string -> outcome DetectionResult) (message : Any) : Prop :=
  exists r d, message = Response r /\ parse (text (agent_run_response r)) = Ret d.

(** The executor takes part in the event: it starts, completes or fails in
    it, is the target of the delivery, or yields the output. *)
Definition involves (i : string) (ev : Event string) : bool :=
  match ev with
  | ExecutorStarted j | ExecutorCompleted j | ExecutorFailed j _ | OutputYielded j _ =>
      String.eqb i j
  | MessageDelivered _ tgt => String.eqb i tgt
  end.

End ControlFlow.

(** ** 03-extras/04-middleware.py *)

Module Middleware.

Local Open Scope py_scope.

(** [ChatContext], as far as the middleware reads and writes it. *)
Record ChatContext : Type := {
  messages : list Framework.ChatMessage;
  result : option Framework.ChatResponse;
  terminate : bool
}.

(** The state of one middleware call: the context object it shares with
    the rest of the pipeline, and the number of times the continuation has
    been invoked so far. *)
Record Invocation : Type := {
  context : ChatContext;
  next_calls : nat
}.

(** The continuation: the rest of the pipeline, acting on the context. *)
Definition Next : Type := M ChatContext unit.

(** [await next(context)] *)
Definition call_next (next : Next) : M Invocation unit :=
  fun s =>
    let (o, c) := next (context s) in
    (o, {| context := c; next_calls := S (next_calls s) |}).

(** [context.result = r] *)
Definition set_result (r : Framework.ChatResponse) : M Invocation unit :=
  modify (fun s =>
    {| context := {| messages := messages (context s);
                     result := Some r;
                     terminate := terminate (context s) |};
       next_calls := next_calls s |}).

(** [context.terminate = b] *)
Definition set_terminate (b : bool) : M Invocation unit :=
  modify (fun s =>
    {| context := {| messages := messages (context s);
                     result := result (context s);
                     terminate := b |};
       next_calls := next_calls s |}).

Definition blocked_term : string := "bitcoin".

Definition rejection : Framework.ChatResponse :=
  {| Framework.messages :=
       [{| Framework.role := Framework.ASSISTANT;
           Framework.text := "Sorry, I cannot assist with that request." |}] |}.

(** The test made on one message of the loop. *)
Definition is_blocked (message : Framework.ChatMessage) : bool :=
  if truthy_str (Framework.text message) then
    let message_lower := lower (Framework.text message) in
    contains blocked_term message_lower
  else false.

(** The [for message in context.messages] loop of [security_middleware]
    with what follows it: the body returns from the function at the first
    blocked message, and the continuation is awaited after the loop. *)
Fixpoint security_loop (msgs : list Framework.ChatMessage) (next : Next) : M Invocation unit :=
  match msgs with
  | [] => call_next next
  | message :: rest =>
      if is_blocked message then
        set_result rejection ;;;
        set_terminate true ;;;
        ret tt
      else security_loop rest next
  end.

(** [security_middleware(context, next)]; the calls to [print] are left out. *)
Definition security_middleware (next : Next) : M Invocation unit :=
  fun s => security_loop (messages (context s)) next s.

(** The text mentions the term whatever the case of its letters: a piece of
    the text equals the term once lowered. *)
Definition mentions (term text : string) : Prop :=
  exists pre mid post, text = (pre ++ mid ++ post)%string /\ lower mid = term.

(** Some message of the context mentions the blocked term. *)
Definition blocked (ctx : ChatContext) : Prop :=
  exists message, In message (messages ctx) /\ mentions blocked_term (Framework.text message).

End Middleware.

(** ** 03-extras/02-chat_message_store.py *)

Module ChatMessageStore.

Local Open Scope py_scope.

(** [agent_framework._threads.ChatMessageStoreState] *)
Record ChatMessageStoreState : Type := {
  messages : list Framework.ChatMessage
}.

Record CustomChatMessageStore : Type := {
  _messages : list Framework.ChatMessage
}.

Section Store.

(** The serialized state ([Any] in the source) with its truth value, and the
    framework's [ChatMessageStoreState.to_dict] and [from_dict]. *)
Variable Blob : Type.
Variable truthy : Blob -> bool.
Variable to_dict : ChatMessageStoreState -> Blob.
Variable from_dict : Blob -> outcome ChatMessageStoreState.

(** [self._messages.extend(ms)] *)
Definition extend (ms : list Framework.ChatMessage) : M CustomChatMessageStore unit :=
  modify (fun self => {| _messages := _messages self ++ ms |}).

(** [CustomChatMessageStore(messages)] *)
Definition init (messages : option (list Framework.ChatMessage)) : CustomChatMessageStore :=
  let self := {| _messages := [] |} in
  match messages with
  | Some (m :: ms) => snd (extend (m :: ms) self)
  | _ => self
  end.

Definition add_messages (ms : list Framework.ChatMessage) : M CustomChatMessageStore unit :=
  extend ms.

Definition list_messages : M CustomChatMessageStore (list Framework.ChatMessage) :=
  self <- get ;; ret (_messages self).

Definition update_from_state (serialized_store_state : Blob) : M CustomChatMessageStore unit :=
  if truthy serialized_store_state then
    state <- lift (from_dict serialized_store_state) ;;
    match messages state with
    | [] => ret tt
    | ms => extend ms
    end
  else ret tt.

(** [deserialize]: a new store updated from the serialized state. *)
Definition deserialize (serialized_store_state : Blob) : outcome CustomChatMessageStore :=
  let store := init None in
  match update_from_state serialized_store_state store with
  | (Ret _, store') => Ret store'
  | (Raise e, _) => Raise e
  end.

Definition serialize : M CustomChatMessageStore Blob :=
  self <- get ;;
  let state := {| messages := _messages self |} in
  ret (to_dict state).

End Store.

End ChatMessageStore.

(** ** 03-extras/03-context_provider.py *)

Module ContextProvider.

Local Open Scope py_scope.

Record UserInfo : Type := {
  name : option string;
  age : option Z
}.

(** [Context(instructions=...)] *)
Record Context : Type := {
  instructions : string
}.

(** [result.value] of the chat client's response: nothing, a [UserInfo], or
    a value of another type. *)
Inductive ResponseValue : Type :=
| NoValue
| UserInfoValue (v : UserInfo)
| OtherValue.

Record ChatResponse : Type := {
  value : ResponseValue
}.

(** Truth value of an optional string and of an optional integer: [None],
    the empty string and zero are false. *)
Definition truthy_name (n : option string) : bool :=
  match n with Some s => truthy_str s | None => false end.

Definition truthy_age (a : option Z) : bool :=
  match a with Some z => negb (Z.eqb z 0) | None => false end.

Definition is_None {A} (x : option A) : bool :=
  match x with None => true | Some _ => false end.

Definition ask_name : string :=
  "Ask the user for their name and politely decline to answer any questions until they provide it.".

Definition ask_age : string :=
  "Ask the user for their age and politely decline to answer any questions until they provide it.".

Definition state_name (n : string) : string := "The user's name is " ++ n ++ ".".

Definition state_age (a : Z) : string := "The user's age is " ++ str_of_int a ++ ".".

(** What [invoked] makes of the known information [u] and an extracted
    [v]: a field of [v] is taken only where [u] has none and [v] has a true
    value. *)
Definition absorb (u v : UserInfo) : UserInfo :=
  {| name := if is_None (name u) && truthy_name (name v) then name v else name u;
     age := if is_None (age u) && truthy_age (age v) then age v else age u |}.

Section Memory.

(** The state behind the chat client, and its [get_response] with the
    extraction instructions and [response_format=UserInfo]. *)
Variable World : Type.
Variable get_response : list Framework.ChatMessage -> M World ChatResponse.

(** [UserInfoMemory]: the object's [user_info], next to the client's state. *)
Record UserInfoMemory : Type := {
  chat_client : World;
  user_info : UserInfo
}.

Definition set_name (n : option string) : M UserInfoMemory unit :=
  modify (fun self =>
    {| chat_client := chat_client self;
       user_info := {| name := n; age := age (user_info self) |} |}).

Definition set_age (a : option Z) : M UserInfoMemory unit :=
  modify (fun self =>
    {| chat_client := chat_client self;
       user_info := {| name := name (user_info self); age := a |} |}).

(** [await self._chat_client.get_response(...)] *)
Definition call_get_response (request_messages : list Framework.ChatMessage)
    : M UserInfoMemory ChatResponse :=
  zoom chat_client
       (fun w self => {| chat_client := w; user_info := user_info self |})
       (get_response request_messages).

(** The list [instructions] built by [invoking]. *)
Definition invoking_instructions (u : UserInfo) : list string :=
  let instructions := [] in
  let instructions :=
    match name u with
    | None => instructions ++ [ask_name]
    | Some n => instructions ++ [state_name n]
    end in
  let instructions :=
    match age u with
    | None => instructions ++ [ask_age]
    | Some a => instructions ++ [state_age a]
    end in
  instructions.

(** [invoking(messages)]; the calls to [print] are left out. *)
Definition invoking (messages : list Framework.ChatMessage) : M UserInfoMemory Context :=
  self <- get ;;
  ret {| instructions := join " " (invoking_instructions (user_info self)) |}.

Definition is_user (msg : Framework.ChatMessage) : bool :=
  String.eqb (Framework.value (Framework.role msg)) "user".

(** [invoked(request_messages, ...)] *)
Definition invoked (request_messages : list Framework.ChatMessage) : M UserInfoMemory unit :=
  let user_messages := filter is_user request_messages in
  self <- get ;;
  if (is_None (name (user_info self)) || is_None (age (user_info self)))
     && negb (Nat.eqb (List.length user_messages) 0)
  then
    try_except
      (result <- call_get_response request_messages ;;
       match value result with
       | UserInfoValue v =>
           (self <- get ;;
            if is_None (name (user_info self)) && truthy_name (name v)
            then set_name (name v) else ret tt) ;;;
           (self <- get ;;
            if is_None (age (user_info self)) && truthy_age (age v)
            then set_age (age v) else ret tt)
       | _ => ret tt
       end)
      (fun _ => ret tt)
  else ret tt.

(** A conversation: [invoked] after each of a sequence of agent calls. *)
Fixpoint invoked_each (calls : list (list Framework.ChatMessage)) : M UserInfoMemory unit :=
  match calls with
  | [] => ret tt
  | request_messages :: rest => invoked request_messages ;;; invoked_each rest
  end.

End Memory.

End ContextProvider.

(** ** The agent runtime ([Agent.run] with tools) *)

Module AgentRuntime.

Local Open Scope py_scope.

Section Runtime.

(** [Globals] is the state tool bodies act on, [Args] the arguments of a
    function call. *)
Variables Globals Args : Type.

Inductive ApprovalMode : Type := never_require | always_require.

(** A tool as [ai_function] declares it. *)
Record AIFunction : Type := {
  name : string;
  description : string;
  approval_mode : ApprovalMode;
  invoke : Args -> M Globals string
}.

Record FunctionCall : Type := {
  call_id : nat;
  function_name : string;
  arguments : Args
}.

Inductive Content : Type :=
| TextContent (t : string)
| FunctionApprovalRequestContent (function_call : FunctionCall)
| FunctionApprovalResponseContent (approved : bool) (function_call : FunctionCall).

(** [user_input_needed.create_response(approved)] *)
Definition create_response (user_input_needed : FunctionCall) (approved : bool) : Content :=
  FunctionApprovalResponseContent approved user_input_needed.

Record ChatMessage : Type := {
  role : Framework.Role;
  contents : list Content
}.

(** An element of the input of a run: a string or a message. *)
Inductive Input : Type :=
| Query (q : string)
| Message (m : ChatMessage).

(** Modelled from the spec: the response of section 6,
    "Response{text, structured value, user_input_requests}"; a pending
    request is held as the function call it asks approval for. *)
Record AgentRunResponse : Type := {
  text : string;
  user_input_requests : list FunctionCall
}.

(** What the language model answers in one turn: a final text, or a batch
    of function calls. *)
Inductive ModelTurn : Type :=
| Say (t : string)
| Call (calls : list FunctionCall).

(** The language model, an external collaborator: its turn, given the input
    of the run and the results of the function calls made so far. *)
Variable model : list Input -> list (FunctionCall * string) -> ModelTurn.

(** What is observed of a run. *)
Inductive Event : Type :=
| Suspended (requests : list FunctionCall)
| ToolExecuted (c : FunctionCall)
| ToolRejected (c : FunctionCall)
| Completed (t : string).

Record Session : Type := {
  globals : Globals;
  trace : list Event
}.

Definition log (ev : Event) : M Session unit :=
  modify (fun s => {| globals := globals s; trace := trace s ++ [ev] |}).

Definition find_tool (n : string) (tools : list AIFunction) : option AIFunction :=
  find (fun t => String.eqb (name t) n) tools.

Definition requires_approval (tools : list AIFunction) (c : FunctionCall) : bool :=
  match find_tool (function_name c) tools with
  | Some t => match approval_mode t with always_require => true | never_require => false end
  | None => false
  end.

(** The approval decisions carried by the input of a run. *)
Definition approvals_of (i : Input) : list (bool * FunctionCall) :=
  match i with
  | Query _ => []
  | Message m =>
      flat_map (fun c => match c with
                         | FunctionApprovalResponseContent a fc => [(a, fc)]
                         | _ => []
                         end) (contents m)
  end.

Definition approvals (inputs : list Input) : list (bool * FunctionCall) :=
  flat_map approvals_of inputs.

(** The body of the tool named by a call runs on the globals. *)
Definition execute (tools : list AIFunction) (c : FunctionCall) : M Session (FunctionCall * string) :=
  match find_tool (function_name c) tools with
  | Some t =>
      log (ToolExecuted c) ;;;
      out <- zoom globals (fun g s => {| globals := g; trace := trace s |})
                  (invoke t (arguments c)) ;;
      ret (c, out)
  | None => ret (c, "unknown function")
  end.

Fixpoint execute_all (tools : list AIFunction) (calls : list FunctionCall)
    : M Session (list (FunctionCall * string)) :=
  match calls with
  | [] => ret []
  | c :: rest =>
      r <- execute tools c ;;
      rs <- execute_all tools rest ;;
      ret (r :: rs)
  end.

(** Modelled from the spec: section 9, "resumption re-enters the run with
    the original input plus the approval decisions appended".  An approved
    call is executed, a refused one is reported to the model as such. *)
Fixpoint resume (tools : list AIFunction) (decisions : list (bool * FunctionCall))
    : M Session (list (FunctionCall * string)) :=
  match decisions with
  | [] => ret []
  | (approved, c) :: rest =>
      r <- (if approved then execute tools c
            else log (ToolRejected c) ;;; ret (c, "rejected")) ;;
      rs <- resume tools rest ;;
      ret (r :: rs)
  end.

(** Modelled from the spec: section 6, "approval-gated tools suspend the run
    and surface a user-input-request that must be answered before
    continuing", and section 9, "the run returning a paused result carrying
    the set of outstanding approval requests".  A batch of calls with a
    gated one suspends the run before any call of the batch is executed;
    other batches are executed and their results go back to the model.
    [fuel] bounds the number of turns of the model. *)
Fixpoint turns (fuel : nat) (tools : list AIFunction) (inputs : list Input)
    (results : list (FunctionCall * string)) : M Session AgentRunResponse :=
  match fuel with
  | O => raise (ServiceError "the model did not reach a final answer")
  | S fuel' =>
      match model inputs results with
      | Say t =>
          log (Completed t) ;;;
          ret {| text := t; user_input_requests := [] |}
      | Call calls =>
          if existsb (requires_approval tools) calls then
            let requests := filter (requires_approval tools) calls in
            log (Suspended requests) ;;;
            ret {| text := ""; user_input_requests := requests |}
          else
            rs <- execute_all tools calls ;;
            turns fuel' tools inputs (results ++ rs)
      end
  end.

(** [await agent.run(inputs, tools=...)] *)
Definition run (fuel : nat) (tools : list AIFunction) (inputs : list Input)
    : M Session AgentRunResponse :=
  rs <- resume tools (approvals inputs) ;;
  turns fuel tools inputs rs.

(** In the trace, the body of a gated tool runs only for a call that an
    earlier suspension asked approval for. *)
Definition approved_before (tools : list AIFunction) (tr : list Event) : Prop :=
  forall l1 c l2,
    tr = l1 ++ ToolExecuted c :: l2 ->
    requires_approval tools c = true ->
    exists requests, In (Suspended requests) l1 /\ In c requests.

End Runtime.

Arguments Query {Args} q.
Arguments Say {Args} t.
Arguments Completed {Args} t.

End AgentRuntime.

(** ** 01-agent_types/04-local_tools.py *)

Module LocalTools.

Import AgentRuntime.

Local Open Scope py_scope.
Local Open Scope float_scope.

(** The module-level variable [balance]. *)
Record Globals : Type := {
  balance : float
}.

Definition initial : Globals := {| balance := 100.0 |}.

(** The arguments the tools of the sample take. *)
Record Args : Type := {
  amount : float;
  reason : string
}.

Section Tools.

(** [str] of a float, as an f-string formats it. *)
Variable repr : float -> string.

(** [get_balance()] *)
Definition get_balance : M Globals string :=
  g <- get ;;
  ret ("The balance for is $" ++ repr (balance g) ++ ".")%string.

(** [_make_payment(amount, reason)] *)
Definition _make_payment (amount : float) (reason : string) : M Globals string :=
  modify (fun g => {| balance := balance g - amount |}) ;;;
  ret ("Processing payment of $" ++ repr amount ++ " for " ++ reason ++ ".")%string.

(** [_get_loan(amount)] *)
Definition _get_loan (amount : float) : M Globals string :=
  modify (fun g => {| balance := balance g + amount |}) ;;;
  ret ("Processing loan request of $" ++ repr amount ++ ".")%string.

(** The three tools as they are declared. *)
Definition get_balance_tool : AIFunction Globals Args :=
  {| name := "get_balance";
     description := "Get the balance for a given user.";
     approval_mode := never_require;
     invoke := fun _ => get_balance |}.

Definition make_payment : AIFunction Globals Args :=
  {| name := "make_payment";
     description := "Make a payment for a given user.";
     approval_mode := never_require;
     invoke := fun a => _make_payment (amount a) (reason a) |}.

Definition get_loan : AIFunction Globals Args :=
  {| name := "get_loan";
     description := "Get a loan for a given user.";
     approval_mode := always_require;
     invoke := fun a => _get_loan (amount a) |}.

(** The tools of the loan request: those of the agent and [_get_loan],
    "adding the loan tool for this request only". *)
Definition loan_tools : list (AIFunction Globals Args) :=
  [get_balance_tool; make_payment] ++ [get_loan].

Variable model : list (Input Args) -> list (FunctionCall Args * string) -> ModelTurn Args.

(** The state of [main]: the agent session and what is left to read from
    standard input. *)
Record Program : Type := {
  session : Session Globals Args;
  stdin : list string
}.

(** [await asyncio.to_thread(input, ...)] *)
Definition input : M Program string :=
  fun p =>
    match stdin p with
    | [] => (Raise EOFError, p)
    | line :: rest => (Ret line, {| session := session p; stdin := rest |})
    end.

(** [await agent.run(inputs, tools=[_get_loan])] *)
Definition agent_run (fuel : nat) (inputs : list (Input Args))
    : M Program (AgentRunResponse Args) :=
  zoom session (fun s p => {| session := s; stdin := stdin p |})
       (run model fuel loan_tools inputs).

(** The [for user_input_needed in result.user_input_requests] loop: it
    extends [new_inputs] by the request and the user's answer to it. *)
Fixpoint ask_approvals (requests : list (FunctionCall Args)) (new_inputs : list (Input Args))
    : M Program (list (Input Args)) :=
  match requests with
  | [] => ret new_inputs
  | user_input_needed :: rest =>
      let new_inputs :=
        new_inputs ++
          [Message {| role := Framework.ASSISTANT;
                      contents := [FunctionApprovalRequestContent user_input_needed] |}] in
      user_approval <- input ;;
      let new_inputs :=
        new_inputs ++
          [Message {| role := Framework.USER;
                      contents := [create_response user_input_needed
                                     (String.eqb (lower user_approval) "y")] |}] in
      ask_approvals rest new_inputs
  end.

(** The two messages the loop adds for one request and the answer read for
    it: the assistant's request and the user's decision. *)
Definition exchange (user_input_needed : FunctionCall Args) (user_approval : string)
    : list (Input Args) :=
  [Message {| role := Framework.ASSISTANT;
              contents := [FunctionApprovalRequestContent user_input_needed] |};
   Message {| role := Framework.USER;
              contents := [create_response user_input_needed
                             (String.eqb (lower user_approval) "y")] |}].

(** The [while len(result.user_input_requests) > 0] loop of [main];
    [rounds] bounds its iterations and [fuel] the turns of each run. *)
Fixpoint approval_loop (rounds fuel : nat) (query : string) (result : AgentRunResponse Args)
    : M Program (AgentRunResponse Args) :=
  match user_input_requests result with
  | [] => ret result
  | _ :: _ =>
      match rounds with
      | O => ret result
      | S rounds' =>
          new_inputs <- ask_approvals (user_input_requests result) [Query query] ;;
          result <- agent_run fuel new_inputs ;;
          approval_loop rounds' fuel query result
      end
  end.

Definition loan_query : string :=
  "I want to request a loan of $150 to cover my gym subscription payment.".

(** The loan request of [main]: the first run and the approval loop. *)
Definition request_loan (rounds fuel : nat) : M Program (AgentRunResponse Args) :=
  let query := loan_query in
  result <- agent_run fuel [Query query] ;;
  approval_loop rounds fuel query result.

End Tools.

End LocalTools.

(** ** 02-tools_and_mcp/mcp-servers/agent_mcp_server.py *)

Module AgentMcpServer.

Local Open Scope py_scope.
Local Open Scope float_scope.

Record Globals : Type := {
  balance : float
}.

Definition initial : Globals := {| balance := 100.0 |}.

Section Tools.

Variable repr : float -> string.

(** [get_balance()] *)
Definition get_balance : M Globals string :=
  g <- get ;;
  ret ("The balance for is $" ++ repr (balance g) ++ ".")%string.

(** [_make_payment(amount, reason)] *)
Definition _make_payment (amount : float) (reason : string) : M Globals string :=
  modify (fun g => {| balance := balance g - amount |}) ;;;
  ret ("Processing payment of $" ++ repr amount ++ " for " ++ reason ++ ".")%string.

End Tools.

End AgentMcpServer.

(** ** Stand-ins for the external collaborators

    Concrete parsers, agents and codecs on which the models above can be run;
    the theorems of part II hold for every collaborator and are instantiated
    on these. *)

Module StandIn.

Import ControlFlow.

(** A classifier reply is read as spam when it starts with [spam:], as
    legitimate when it starts with [ham:], and is rejected otherwise. *)
Definition parse_detection (s : string) : outcome DetectionResult :=
  if prefix "spam:" s then
    Ret {| is_spam := true; reason := "unsolicited offer"; email_content := s |}
  else if prefix "ham:" s then
    Ret {| is_spam := false; reason := "known sender"; email_content := s |}
  else Raise (ValidationError "not a DetectionResult").

Definition parse_email (s : string) : outcome EmailResponse :=
  match s with
  | EmptyString => Raise (ValidationError "not an EmailResponse")
  | _ => Ret {| response := s |}
  end.

(** A classifier that flags the messages mentioning a prize. *)
Definition spam_agent (msgs : list Framework.ChatMessage) : M unit AgentRunResponse :=
  ret {| text := if existsb (fun m => contains "prize" (lower (Framework.text m))) msgs
                 then "spam: prize" else "ham: meeting" |}.

Definition email_agent (msgs : list Framework.ChatMessage) : M unit AgentRunResponse :=
  ret {| text := "Thank you for the follow-up." |}.

Definition ham_response : AgentExecutorResponse :=
  {| executor_id := "spam_detection_agent";
     agent_run_response := {| text := "ham: meeting" |} |}.

Definition spam_response : AgentExecutorResponse :=
  {| executor_id := "spam_detection_agent";
     agent_run_response := {| text := "spam: prize" |} |}.

Definition ham_detection : DetectionResult :=
  {| is_spam := false; reason := "known sender"; email_content := "ham: meeting" |}.

Definition spam_detection : DetectionResult :=
  {| is_spam := true; reason := "unsolicited offer"; email_content := "spam: prize" |}.

(** A serialized store state: a dictionary with the messages under the key
    ["messages"]. *)
Definition Blob : Type := list (string * list Framework.ChatMessage).

Definition truthy (b : Blob) : bool :=
  match b with [] => false | _ :: _ => true end.

Definition to_dict (st : ChatMessageStore.ChatMessageStoreState) : Blob :=
  [("messages", ChatMessageStore.messages st)].

Definition from_dict (b : Blob) : outcome ChatMessageStore.ChatMessageStoreState :=
  match find (fun kv => String.eqb (fst kv) "messages") b with
  | Some kv => Ret {| ChatMessageStore.messages := snd kv |}
  | None => Raise (ValidationError "messages")
  end.

(** A model that asks for a loan of 150 first and answers once it has the
    outcome of the call. *)
Definition loan_call : AgentRuntime.FunctionCall LocalTools.Args :=
  {| AgentRuntime.call_id := 1;
     AgentRuntime.function_name := "get_loan";
     AgentRuntime.arguments := {| LocalTools.amount := 150%float; LocalTools.reason := "" |} |}.

Definition loan_model (inputs : list (AgentRuntime.Input LocalTools.Args))
    (results : list (AgentRuntime.FunctionCall LocalTools.Args * string))
    : AgentRuntime.ModelTurn LocalTools.Args :=
  match results with
  | [] => AgentRuntime.Call [loan_call]
  | (_, out) :: _ =>
      if String.eqb out "rejected" then AgentRuntime.Say "The loan was not approved."
      else AgentRuntime.Say "The loan was granted."
  end.

Definition repr (f : float) : string :=
  if PrimFloat.eqb f 150%float then "150.0" else "?".

Definition start (answers : list string) : LocalTools.Program :=
  {| LocalTools.session :=
       {| AgentRuntime.globals := LocalTools.initial; AgentRuntime.trace := [] |};
     LocalTools.stdin := answers |}.

(** A chat client that extracts the names Alice and Bob and the age 27
    from the messages it is given. *)
Definition says (word : string) (msgs : list Framework.ChatMessage) : bool :=
  existsb (fun m => contains word (Framework.text m)) msgs.

Definition get_response (msgs : list Framework.ChatMessage) : M unit ContextProvider.ChatResponse :=
  ret {| ContextProvider.value :=
           ContextProvider.UserInfoValue
             {| ContextProvider.name :=
                  if says "Alice" msgs then Some "Alice"
                  else if says "Bob" msgs then Some "Bob" else None;
                ContextProvider.age := if says "27" msgs then Some 27%Z else None |} |}.

Definition user (text : string) : Framework.ChatMessage :=
  {| Framework.role := Framework.USER; Framework.text := text |}.

Definition new_memory : ContextProvider.UserInfoMemory unit :=
  {| ContextProvider.chat_client := tt;
     ContextProvider.user_info := {| ContextProvider.name := None; ContextProvider.age := None |} |}.

(** A classifier whose reply is no DetectionResult, one whose call fails,
    and an assistant whose reply is no EmailResponse. *)
Definition confused_agent (msgs : list Framework.ChatMessage) : M unit ControlFlow.AgentRunResponse :=
  ret {| ControlFlow.text := "I am not sure." |}.

Definition failing_agent (msgs : list Framework.ChatMessage) : M unit ControlFlow.AgentRunResponse :=
  raise (ServiceError "the service is unavailable").

Definition silent_agent (msgs : list Framework.ChatMessage) : M unit ControlFlow.AgentRunResponse :=
  ret {| ControlFlow.text := EmptyString |}.

(** A chat client that extracts an empty name and the age zero. *)
Definition blank_response (msgs : list Framework.ChatMessage) : M unit ContextProvider.ChatResponse :=
  ret {| ContextProvider.value :=
           ContextProvider.UserInfoValue
             {| ContextProvider.name := Some EmptyString; ContextProvider.age := Some 0%Z |} |}.

Definition tom_cruise : list Framework.ChatMessage :=
  [{| Framework.role := Framework.USER; Framework.text := "Who is Tom Cruise?" |};
   {| Framework.role := Framework.ASSISTANT; Framework.text := "An American actor." |}].

End StandIn.

(* ===================================================================== *)
(** * Part II: the theorems *)
(* ===================================================================== *)

(** ** Strings *)

Section StringFacts.




(** [prefix p s] holds exactly when [s] starts with [p]. *)
Lemma prefix_iff (p s : string) :
  prefix p s = true <-> exists rest, s = (p ++ rest)%string.
Proof.
  revert s. induction p as [|c p IH]; intro s.
  - split; [intros _; now exists s | intros _; destruct s; reflexivity].
  - destruct s as [|d s]; simpl.
    + split; [discriminate | intros [rest H]; discriminate].
    + destruct (Ascii.ascii_dec c d) as [->|Hne].
      * rewrite IH. split.
        -- intros [rest ->]. now exists rest.
        -- intros [rest H]. injection H as ->. now exists rest.
      * split; [discriminate|].
        intros [rest H]. injection H as Hd _. congruence.
Qed.

(** [contains sub s] holds exactly when [sub] occurs in [s]. *)
Lemma contains_iff (sub s : string) :
  contains sub s = true <-> exists pre post, s = (pre ++ sub ++ post)%string.
Proof.
  induction s as [|c s IH]; cbn [contains].
  - rewrite prefix_iff. split.
    + intros [rest H]. exists ""%string, rest. exact H.
    + intros [pre [post H]].
      destruct pre; [now exists post | discriminate].
  - rewrite orb_true_iff, prefix_iff, IH. split.
    + intros [[rest H] | [pre [post H]]].
      * exists ""%string, rest. exact H.
      * exists (String c pre), post. simpl. now rewrite H.
    + intros [pre [post H]]. destruct pre as [|d pre]; simpl in H.
      * left. now exists post.
      * right. injection H as _ ->. now exists pre, post.
Qed.

Lemma lower_append (s t : string) : lower (s ++ t) = (lower s ++ lower t)%string.
Proof. induction s as [|c s IH]; simpl; [reflexivity | now rewrite IH]. Qed.

(** A split of [lower s] comes from a split of [s]. *)
Lemma lower_append_inv (s a b : string) :
  lower s = (a ++ b)%string ->
  exists s1 s2, s = (s1 ++ s2)%string /\ lower s1 = a /\ lower s2 = b.
Proof.
  revert s. induction a as [|c a IH]; intros s H; simpl in H.
  - exists ""%string, s. auto.
  - destruct s as [|d s]; simpl in H; [discriminate|].
    injection H as Hc Hs. destruct (IH _ Hs) as [s1 [s2 [-> [H1 H2]]]].
    exists (String d s1), s2. simpl. rewrite Hc, H1. auto.
Qed.

End StringFacts.

(** ** 04-workflows/01-basic.py *)

Section BasicFacts.

Import Workflow.

Lemma upper_hello_world : upper "hello world" = "HELLO WORLD".
Proof. reflexivity. Qed.



(** The graph of [main] passes build-time validation. *)
Lemma basic_workflow_builds :
  exists g, Basic.workflow = Some g /\ start g = "upper_case_executor".
Proof. eexists; split; reflexivity. Qed.

(** C1. Running the two-node workflow of 01-basic.py (upper-case, then
    reverse and yield) on the input "hello world" yields exactly the single
    output "DLROW OLLEH" and ends in the idle state; two handler calls are
    enough, and further fuel changes nothing. *)
Theorem basic_workflow_hello_world :
  forall n : nat,
  exists r,
    Basic.main (2 + n) = Some r
    /\ get_outputs r = ["DLROW OLLEH"]
    /\ get_final_state r = IDLE
    /\ started r = ["upper_case_executor"; "reverse_text_executor"].
Proof.
  intro n. eexists. split; [reflexivity|].
  destruct n; repeat split; reflexivity.
Qed.

End BasicFacts.

(** ** 04-workflows/03-control_flow.py *)

Section ControlFlowFacts.

Import Workflow ControlFlow.

Variable World : Type.
Variable parse_detection : string -> outcome DetectionResult.
Variable parse_email : string -> outcome EmailResponse.
Variable spam_agent : list Framework.ChatMessage -> M World AgentRunResponse.
Variable email_agent : list Framework.ChatMessage -> M World AgentRunResponse.

Local Abbreviation condition := (get_condition (World := World) parse_detection).
Local Abbreviation run_email :=
  (ControlFlow.run_email parse_detection parse_email spam_agent email_agent).

(** On a response that parses, the predicate compares the flag. *)
Lemma condition_parsed (expected : bool) (r : AgentExecutorResponse) (d : DetectionResult) (w : World) :
  parse_detection (text (agent_run_response r)) = Ret d ->
  condition expected (Response r) w = (Ret (Bool.eqb (is_spam d) expected), w).
Proof.
  intro H. unfold get_condition, try_except, bind, lift, ret. now rewrite H.
Qed.

(** On a response that does not parse, the predicate is false. *)
Lemma condition_unparsed (expected : bool) (r : AgentExecutorResponse) (e : exn) (w : World) :
  parse_detection (text (agent_run_response r)) = Raise e ->
  condition expected (Response r) w = (Ret false, w).
Proof.
  intro H. unfold get_condition, try_except, bind, lift, ret. now rewrite H.
Qed.

(** On any other message, the predicate is true. *)
Lemma condition_other (expected : bool) (message : Any) (w : World) :
  isinstance_AgentExecutorResponse message = false ->
  condition expected message w = (Ret true, w).
Proof. destruct message; simpl; intro H; try discriminate; reflexivity. Qed.

(** The predicate returns a boolean that depends on the message alone and
    leaves the world as it was. *)
Lemma condition_pure (expected : bool) (message : Any) :
  exists b, forall w, condition expected message w = (Ret b, w).
Proof.
  destruct message as [q|r|s|].
  - exists true; reflexivity.
  - destruct (parse_detection (text (agent_run_response r))) as [d|e] eqn:H.
    + exists (Bool.eqb (is_spam d) expected). intro w. now apply condition_parsed.
    + exists false. intro w. now apply condition_unparsed with e.
  - exists true; reflexivity.
  - exists true; reflexivity.
Qed.

(** The first step of the run on a non-spam classification: the response is
    delivered along the non-spam edge alone. *)
Lemma classify_not_spam (email : string) (w w1 : World) (reply : AgentRunResponse)
    (d : DetectionResult) (g : WorkflowGraph World Any string) :
  ControlFlow.workflow parse_detection parse_email spam_agent email_agent = Some g ->
  spam_agent [{| Framework.role := Framework.USER; Framework.text := email |}] w = (Ret reply, w1) ->
  parse_detection (text reply) = Ret d ->
  is_spam d = false ->
  step g {| pending := [(start g,
                         Request {| messages := [{| Framework.role := Framework.USER;
                                                    Framework.text := email |}];
                                    should_respond := true |})];
            outputs := []; events := []; world := w; state := IN_PROGRESS |}
  = {| pending := [("to_email_assistant_request",
                    Response {| executor_id := "spam_detection_agent";
                                agent_run_response := reply |})];
       outputs := [];
       events := [ExecutorStarted "spam_detection_agent";
                  MessageDelivered "spam_detection_agent" "to_email_assistant_request";
                  ExecutorCompleted "spam_detection_agent"];
       world := w1; state := IN_PROGRESS |}.
Proof.
  intros Hg Hagent Hparse Hspam.
  injection Hg as <-.
  unfold step; cbn.
  unfold bind, in_world, zoom; cbn. rewrite Hagent; cbn.
  unfold accepts; cbn.
  unfold try_except, bind, lift, ret; cbn.
  rewrite Hparse, Hspam; cbn.
  reflexivity.
Qed.

Ltac run_step :=
  cbn [loop state pending]; unfold step at 1; cbn;
  unfold bind, in_world, zoom, lift, ret, try_except, accepts; cbn.

Ltac trace_done :=
  split; [reflexivity | intros _; simpl; tauto].

(** On a non-spam classification no event of the run involves the spam
    handler, whatever the fuel, and the response is delivered to the bridge
    executor as soon as one step is taken. *)
Lemma not_spam_run (email : string) (w w1 : World) (reply : AgentRunResponse)
    (d : DetectionResult) (fuel : nat) (r : Run World Any string) :
  spam_agent [{| Framework.role := Framework.USER; Framework.text := email |}] w = (Ret reply, w1) ->
  parse_detection (text reply) = Ret d ->
  is_spam d = false ->
  run_email email w fuel = Some r ->
  existsb (involves "handle_spam") (events r) = false
  /\ (1 <= fuel ->
      In (MessageDelivered "spam_detection_agent" "to_email_assistant_request") (events r)).
Proof.
  intros Hagent Hparse Hspam Hrun.
  unfold ControlFlow.run_email in Hrun. cbn in Hrun. injection Hrun as <-.
  unfold run.
  destruct fuel as [|fuel]; [split; [reflexivity | lia]|].
  run_step. rewrite Hagent; cbn.
  unfold try_except, bind, lift, ret; cbn.
  rewrite Hparse, Hspam; cbn.
  destruct fuel as [|fuel]; [trace_done|].
  run_step. rewrite Hparse; cbn.
  destruct fuel as [|fuel]; [trace_done|].
  run_step.
  destruct (email_agent _ w1) as [[reply2|e2] w2]; cbn;
    [|destruct fuel; trace_done].
  destruct fuel as [|fuel]; [trace_done|].
  run_step.
  destruct (parse_email _) as [em|e3]; cbn; destruct fuel; trace_done.
Qed.

(** C2. On a classifier response whose text parses as a DetectionResult,
    the condition of the non-spam edge, [get_condition(False)], is true
    exactly when [is_spam] is false, and the condition of the spam edge,
    [get_condition(True)], exactly when [is_spam] is true.  Hence in the run
    of the routing graph on a non-spam classification no event involves the
    spam handler (it is never started and no message is delivered to it),
    while the response is delivered to the non-spam branch. *)
Theorem condition_routes_on_is_spam (r : AgentExecutorResponse) (d : DetectionResult) :
  parse_detection (text (agent_run_response r)) = Ret d ->
  (forall w, condition false (Response r) w = (Ret (negb (is_spam d)), w))
  /\ (forall w, condition true (Response r) w = (Ret (is_spam d), w))
  /\ (is_spam d = false ->
      forall (email : string) (w w1 : World) (fuel : nat) (run : Run World Any string),
        spam_agent [{| Framework.role := Framework.USER; Framework.text := email |}] w
          = (Ret (agent_run_response r), w1) ->
        run_email email w fuel = Some run ->
        ~ In "handle_spam" (started run)
        /\ (forall src, ~ In (MessageDelivered src "handle_spam") (events run))
        /\ (1 <= fuel ->
            In (MessageDelivered "spam_detection_agent" "to_email_assistant_request")
               (events run))).
Proof.
  intro Hparse. split; [|split].
  - intro w. rewrite condition_parsed with (d := d) by exact Hparse. now destruct (is_spam d).
  - intro w. rewrite condition_parsed with (d := d) by exact Hparse. now destruct (is_spam d).
  - intros Hspam email w w1 fuel run Hagent Hrun.
    destruct (not_spam_run Hagent Hparse Hspam Hrun) as [Hnone Hsome].
    split; [|split].
    + intro Hin. unfold started in Hin. apply in_flat_map in Hin.
      destruct Hin as [ev [Hev Hi]].
      assert (Hinv : involves "handle_spam" ev = true).
      { destruct ev; simpl in Hi; try contradiction.
        destruct Hi as [Hi|[]]. subst i. reflexivity. }
      assert (existsb (involves "handle_spam") (events run) = true)
        by (apply existsb_exists; eauto).
      congruence.
    + intros src Hin.
      assert (existsb (involves "handle_spam") (events run) = true)
        by (apply existsb_exists; exists (MessageDelivered src "handle_spam"); auto).
      congruence.
    + exact Hsome.
Qed.

(** C3, as the code has it.  The predicate returned by [get_condition]
    never raises and leaves the world as it was.  On an agent response whose
    text does not parse as a DetectionResult it returns false, so the edge
    does not fire; on a message that is not an agent response it returns
    true, the guard that lets the edge pass. *)
Theorem condition_total_and_guarded (expected : bool) (message : Any) (w : World) :
  (exists b, condition expected message w = (Ret b, w))
  /\ (forall r e, message = Response r ->
        parse_detection (text (agent_run_response r)) = Raise e ->
        condition expected message w = (Ret false, w))
  /\ (isinstance_AgentExecutorResponse message = false ->
      condition expected message w = (Ret true, w)).
Proof.
  split; [|split].
  - destruct (condition_pure expected message) as [b Hb]. exists b. apply Hb.
  - intros r e -> H. now apply condition_unparsed with e.
  - apply condition_other.
Qed.

(** C4. Evaluating a condition twice on the same message gives the same
    boolean both times, and neither evaluation changes anything: the result
    depends on the message alone and the world is returned as it was. *)
Theorem condition_idempotent (expected : bool) (message : Any) :
  exists b,
    (forall w, condition expected message w = (Ret b, w))
    /\ (forall w,
          (b1 <- condition expected message ;;
           b2 <- condition expected message ;;
           ret (b1, b2))%py w = (Ret (b, b), w)).
Proof.
  destruct (condition_pure expected message) as [b Hb].
  exists b. split; [exact Hb|].
  intro w. unfold bind. rewrite Hb. rewrite Hb. reflexivity.
Qed.

(** C10. On a response whose text parses as a DetectionResult, the spam
    handler yields "Email marked as spam: " followed by the reason when
    [is_spam] is true, and raises a RuntimeError, yielding no output, when
    [is_spam] is false. *)
Theorem spam_handler_contract (response : AgentExecutorResponse) (d : DetectionResult)
    (w : World) (ctx : WorkflowContext Any string) :
  parse_detection (text (agent_run_response response)) = Ret d ->
  (is_spam d = true ->
     handle_spam_classifier_response parse_detection response (w, ctx)
     = (Ret tt, (w, ctx ++ [YieldOutput ("Email marked as spam: " ++ reason d)%string])))
  /\ (is_spam d = false ->
      handle_spam_classifier_response parse_detection response (w, ctx)
      = (Raise (RuntimeError "This executor should only handle spam messages."), (w, ctx))).
Proof.
  intro H.
  unfold handle_spam_classifier_response, bind, lift. rewrite H.
  split; intros ->; reflexivity.
Qed.

End ControlFlowFacts.

Section ControlFlowExamples.

Import Workflow ControlFlow.

(** The theorem at the stand-in collaborators: the legitimate reply
    satisfies the non-spam edge alone, and the run on a meeting follow-up
    never starts the spam handler. *)
Lemma condition_routes_on_is_spam_witness :
  StandIn.parse_detection (text (agent_run_response StandIn.ham_response))
    = Ret StandIn.ham_detection
  /\ get_condition (World := unit) StandIn.parse_detection false
       (Response StandIn.ham_response) tt = (Ret true, tt)
  /\ get_condition (World := unit) StandIn.parse_detection true
       (Response StandIn.ham_response) tt = (Ret false, tt)
  /\ match ControlFlow.run_email StandIn.parse_detection StandIn.parse_email
             StandIn.spam_agent StandIn.email_agent "Team Meeting Follow-up" tt 4 with
     | Some run => ~ In "handle_spam" (started run)
     | None => False
     end.
Proof.
  split; [reflexivity|].
  destruct (@condition_routes_on_is_spam unit StandIn.parse_detection StandIn.parse_email
              StandIn.spam_agent StandIn.email_agent
              StandIn.ham_response StandIn.ham_detection eq_refl) as [Hf [Ht Hrun]].
  split; [exact (Hf tt) | split; [exact (Ht tt)|]].
  destruct (ControlFlow.run_email StandIn.parse_detection StandIn.parse_email
              StandIn.spam_agent StandIn.email_agent "Team Meeting Follow-up" tt 4)
    as [run|] eqn:E; [|discriminate E].
  exact (proj1 (Hrun eq_refl "Team Meeting Follow-up" tt tt 4 run eq_refl E)).
Defined.

(** A string is not an agent response and cannot be read as a
    DetectionResult, yet the condition of the spam edge holds of it: the
    predicate does not fail closed on such a message. *)
Lemma condition_passes_foreign_message :
  ~ interpretable StandIn.parse_detection (Str "hello")
  /\ get_condition (World := unit) StandIn.parse_detection true (Str "hello") tt
     = (Ret true, tt).
Proof.
  split; [|reflexivity].
  intros [r [d [H _]]]. discriminate H.
Qed.

(** The spam handler at the stand-in parser, on a spam and on a legitimate
    classification. *)
Lemma spam_handler_contract_witness :
  handle_spam_classifier_response (World := unit) StandIn.parse_detection
    StandIn.spam_response (tt, [])
  = (Ret tt, (tt, [YieldOutput "Email marked as spam: unsolicited offer"])).
Proof.
  exact (proj1 (@spam_handler_contract unit StandIn.parse_detection
                  StandIn.spam_response StandIn.spam_detection tt [] eq_refl) eq_refl).
Defined.

Lemma spam_handler_rejects_legitimate :
  handle_spam_classifier_response (World := unit) StandIn.parse_detection
    StandIn.ham_response (tt, [])
  = (Raise (RuntimeError "This executor should only handle spam messages."), (tt, [])).
Proof. reflexivity. Qed.

End ControlFlowExamples.

(** ** 03-extras/04-middleware.py *)

Section MiddlewareFacts.

Import Middleware.

(** The test of the loop holds exactly of the messages that mention the
    blocked term. *)
Lemma is_blocked_iff (message : Framework.ChatMessage) :
  is_blocked message = true <-> mentions blocked_term (Framework.text message).
Proof.
  unfold is_blocked, mentions.
  assert (Hc : contains blocked_term (lower (Framework.text message)) = true
               <-> exists pre mid post,
                     Framework.text message = (pre ++ mid ++ post)%string
                     /\ lower mid = blocked_term).
  { rewrite contains_iff. split.
    - intros [pre [post H]].
      destruct (lower_append_inv _ _ _ H) as [s1 [s23 [Hs [H1 H23]]]].
      destruct (lower_append_inv _ _ _ H23) as [s2 [s3 [Hs23 [H2 H3]]]].
      exists s1, s2, s3. subst. auto.
    - intros [pre [mid [post [Hs Hm]]]].
      exists (lower pre), (lower post).
      rewrite Hs, !lower_append, Hm. reflexivity. }
  destruct (Framework.text message) as [|c t] eqn:Ht; simpl truthy_str; cbv iota.
  - split; [discriminate|].
    intros [pre [mid [post [Hs Hm]]]].
    destruct pre; [|discriminate Hs]. destruct mid; [|discriminate Hs].
    discriminate Hm.
  - exact Hc.
Qed.

Lemma blocked_iff (ctx : ChatContext) :
  blocked ctx <-> existsb is_blocked (messages ctx) = true.
Proof.
  unfold blocked. rewrite existsb_exists.
  split; intros [m [Hin Hm]]; exists m; split; auto; now apply is_blocked_iff.
Qed.

(** The loop, by whether one of the messages still to scan is blocked. *)
Lemma security_loop_spec (next : Next) (msgs : list Framework.ChatMessage) (s : Invocation) :
  security_loop msgs next s =
  if existsb is_blocked msgs then
    (Ret tt, {| context := {| messages := messages (context s);
                              result := Some rejection;
                              terminate := true |};
                next_calls := next_calls s |})
  else call_next next s.
Proof.
  induction msgs as [|m msgs IH]; simpl; [reflexivity|].
  destruct (is_blocked m); simpl; [reflexivity | exact IH].
Qed.

(** C5. [security_middleware] short-circuits exactly on blocked content.
    If some message mentions "bitcoin" in any case, it sets the result of
    the context to the fixed rejection and the terminate flag, and does not
    invoke the continuation; otherwise it invokes the continuation exactly
    once, on the context as it received it, and what the context holds
    afterwards is what the continuation left. *)
Theorem security_middleware_short_circuits (next : Next) (ctx : ChatContext) (n : nat) :
  (blocked ctx ->
     security_middleware next {| context := ctx; next_calls := n |}
     = (Ret tt, {| context := {| messages := messages ctx;
                                 result := Some rejection;
                                 terminate := true |};
                   next_calls := n |}))
  /\ (~ blocked ctx ->
      security_middleware next {| context := ctx; next_calls := n |}
      = (fst (next ctx), {| context := snd (next ctx); next_calls := S n |})).
Proof.
  unfold security_middleware. rewrite security_loop_spec. simpl.
  split; intro H.
  - apply blocked_iff in H. now rewrite H.
  - destruct (existsb is_blocked (messages ctx)) eqn:E.
    + exfalso. apply H. now apply blocked_iff.
    + unfold call_next. simpl. now destruct (next ctx).
Qed.

(** The two queries of [main]: the first is rejected without a call to the
    continuation, the second goes through once. *)
Example bitcoin_query_is_rejected (next : Next) :
  security_middleware next
    {| context := {| messages := [{| Framework.role := Framework.USER;
                                     Framework.text := "I want to know about bitcoin." |}];
                     result := None; terminate := false |};
       next_calls := 0 |}
  = (Ret tt,
     {| context := {| messages := [{| Framework.role := Framework.USER;
                                      Framework.text := "I want to know about bitcoin." |}];
                      result := Some rejection; terminate := true |};
        next_calls := 0 |}).
Proof. reflexivity. Qed.

Example weather_query_goes_through :
  snd (security_middleware (ret tt)
         {| context := {| messages := [{| Framework.role := Framework.USER;
                                          Framework.text := "What is the weather in Zurich" |}];
                          result := None; terminate := false |};
            next_calls := 0 |})
  = {| context := {| messages := [{| Framework.role := Framework.USER;
                                     Framework.text := "What is the weather in Zurich" |}];
                     result := None; terminate := false |};
       next_calls := 1 |}.
Proof. reflexivity. Qed.

Example upper_case_bitcoin_is_blocked :
  is_blocked {| Framework.role := Framework.USER; Framework.text := "Buy BitCoin now" |} = true.
Proof. reflexivity. Qed.

End MiddlewareFacts.

(** ** 03-extras/02-chat_message_store.py *)

Section ChatMessageStoreFacts.

Import ChatMessageStore.

Variable Blob : Type.
Variable truthy : Blob -> bool.
Variable to_dict : ChatMessageStoreState -> Blob.
Variable from_dict : Blob -> outcome ChatMessageStoreState.

(** A new store holds no message. *)
Lemma init_empty : _messages (init None) = [].
Proof. reflexivity. Qed.

(** Updating a store from the serialized form of a list of messages appends
    that list, provided the framework's [from_dict] inverts [to_dict] and a
    state with messages serializes to a true value. *)
Lemma update_from_serialized (ms : list Framework.ChatMessage) (self : CustomChatMessageStore) :
  (forall st, from_dict (to_dict st) = Ret st) ->
  (forall st, messages st <> [] -> truthy (to_dict st) = true) ->
  update_from_state truthy from_dict (to_dict {| messages := ms |}) self
  = (Ret tt, {| _messages := _messages self ++ ms |}).
Proof.
  intros Hinv Htrue. unfold update_from_state.
  destruct ms as [|m ms].
  - destruct (truthy _).
    + unfold bind, lift. rewrite Hinv. simpl. rewrite app_nil_r. now destruct self.
    + rewrite app_nil_r. now destruct self.
  - rewrite Htrue by discriminate.
    unfold bind, lift. rewrite Hinv. reflexivity.
Qed.

(** C6. Serialization round-trip of the custom message store.  Provided the
    framework's [ChatMessageStoreState.from_dict] inverts [to_dict] and the
    dictionary of a state that holds messages is true as a condition,
    deserializing what [serialize] returns gives a store whose
    [list_messages] returns the messages of the original store, in the same
    order; serializing leaves the original store as it was. *)
Theorem serialize_deserialize_roundtrip (store : CustomChatMessageStore) :
  (forall st, from_dict (to_dict st) = Ret st) ->
  (forall st, messages st <> [] -> truthy (to_dict st) = true) ->
  exists blob resumed,
    serialize to_dict store = (Ret blob, store)
    /\ deserialize truthy from_dict blob = Ret resumed
    /\ fst (list_messages resumed) = Ret (_messages store)
    /\ fst (list_messages resumed) = fst (list_messages store).
Proof.
  intros Hinv Htrue.
  exists (to_dict {| messages := _messages store |}), {| _messages := _messages store |}.
  split; [reflexivity|]. split; [|split; reflexivity].
  unfold deserialize.
  rewrite (update_from_serialized (_messages store) (init None) Hinv Htrue).
  reflexivity.
Qed.

End ChatMessageStoreFacts.

Section ChatMessageStoreExamples.

Import ChatMessageStore.

Lemma stand_in_codec_inverts :
  forall st, StandIn.from_dict (StandIn.to_dict st) = Ret st.
Proof. intros [ms]. reflexivity. Qed.

Lemma stand_in_codec_true :
  forall st, messages st <> [] -> StandIn.truthy (StandIn.to_dict st) = true.
Proof. reflexivity. Qed.

(** The round trip at the stand-in codec, for the store of the first turn
    of [main]. *)
Lemma serialize_deserialize_roundtrip_witness :
  exists blob resumed,
    serialize StandIn.to_dict (init (Some StandIn.tom_cruise))
      = (Ret blob, init (Some StandIn.tom_cruise))
    /\ deserialize StandIn.truthy StandIn.from_dict blob = Ret resumed
    /\ fst (list_messages resumed) = Ret (_messages (init (Some StandIn.tom_cruise)))
    /\ fst (list_messages resumed) = fst (list_messages (init (Some StandIn.tom_cruise))).
Proof.
  exact (@serialize_deserialize_roundtrip StandIn.Blob StandIn.truthy StandIn.to_dict
           StandIn.from_dict (init (Some StandIn.tom_cruise))
           stand_in_codec_inverts stand_in_codec_true).
Defined.

(** Messages added after construction are kept in order by the round trip. *)
Example roundtrip_after_add :
  let store := snd (add_messages StandIn.tom_cruise (init None)) in
  match serialize StandIn.to_dict store with
  | (Ret blob, _) =>
      match deserialize StandIn.truthy StandIn.from_dict blob with
      | Ret resumed => fst (list_messages resumed) = Ret StandIn.tom_cruise
      | Raise _ => False
      end
  | (Raise _, _) => False
  end.
Proof. reflexivity. Qed.

End ChatMessageStoreExamples.

(** ** 01-agent_types/04-local_tools.py and mcp-servers/agent_mcp_server.py *)

Section PaymentFacts.

Local Open Scope float_scope.

Variable repr : float -> string.

(** C8. [_make_payment(a, r)] sets the module-level balance to its previous
    value minus [a], whatever the balance and the amount, and returns the
    confirmation string; [get_balance] reports the current balance and
    leaves it as it is.  Nothing keeps the balance from going below zero:
    paying 150 from the initial balance of 100 leaves -50.  The same holds
    of the copy of the tool in the MCP server. *)
Theorem make_payment_subtracts_unguarded (amount : float) (reason : string)
    (g : LocalTools.Globals) (h : AgentMcpServer.Globals) :
  LocalTools._make_payment repr amount reason g
    = (Ret ("Processing payment of $" ++ repr amount ++ " for " ++ reason ++ ".")%string,
       {| LocalTools.balance := LocalTools.balance g - amount |})
  /\ AgentMcpServer._make_payment repr amount reason h
    = (Ret ("Processing payment of $" ++ repr amount ++ " for " ++ reason ++ ".")%string,
       {| AgentMcpServer.balance := AgentMcpServer.balance h - amount |})
  /\ LocalTools.get_balance repr g
    = (Ret ("The balance for is $" ++ repr (LocalTools.balance g) ++ ".")%string, g)
  /\ AgentMcpServer.get_balance repr h
    = (Ret ("The balance for is $" ++ repr (AgentMcpServer.balance h) ++ ".")%string, h)
  /\ LocalTools.balance (snd (LocalTools._make_payment repr 150 "gym" LocalTools.initial))
    = -50
  /\ PrimFloat.ltb
       (LocalTools.balance (snd (LocalTools._make_payment repr 150 "gym" LocalTools.initial)))
       0 = true
  /\ PrimFloat.ltb
       (AgentMcpServer.balance
          (snd (AgentMcpServer._make_payment repr 150 "gym" AgentMcpServer.initial)))
       0 = true.
Proof.
  repeat split; reflexivity.
Qed.

(** The payments of [main]: 45 is paid, then 150 although only 55 is left. *)
Example main_payments :
  LocalTools.balance
    (snd ((LocalTools._make_payment repr 45 "internet" ;;;
           LocalTools._make_payment repr 150 "gym")%py LocalTools.initial))
  = -95.
Proof. reflexivity. Qed.

End PaymentFacts.

(** ** 03-extras/03-context_provider.py *)

Section ContextProviderFacts.

Import ContextProvider.

Variable World : Type.
Variable get_response : list Framework.ChatMessage -> M World ChatResponse.

Local Abbreviation invoked := (ContextProvider.invoked get_response).
Local Abbreviation invoked_each := (ContextProvider.invoked_each get_response).
Local Abbreviation invoking := (ContextProvider.invoking (World := World)).

(** A field that is known is kept by [absorb]. *)
Lemma absorb_keeps_name (u v : UserInfo) :
  name u <> None -> name (absorb u v) = name u.
Proof. destruct u as [[n|] a]; simpl; [reflexivity | congruence]. Qed.

Lemma absorb_keeps_age (u v : UserInfo) :
  age u <> None -> age (absorb u v) = age u.
Proof. destruct u as [n [a|]]; simpl; [reflexivity | congruence]. Qed.

(** [invoked] never raises; it leaves [user_info] as it was or absorbs one
    extracted [UserInfo] into it. *)
Lemma invoked_spec (request_messages : list Framework.ChatMessage) (self : UserInfoMemory World) :
  fst (invoked request_messages self) = Ret tt
  /\ (user_info (snd (invoked request_messages self)) = user_info self
      \/ exists v, fst (get_response request_messages (chat_client self))
                   = Ret {| value := UserInfoValue v |}
                   /\ user_info (snd (invoked request_messages self))
                      = absorb (user_info self) v).
Proof.
  unfold ContextProvider.invoked, bind, get.
  destruct ((is_None (name (user_info self)) || is_None (age (user_info self)))
            && negb (Nat.eqb (List.length (filter is_user request_messages)) 0));
    [|split; [reflexivity | left; reflexivity]].
  unfold try_except, bind, call_get_response, zoom.
  destruct (get_response request_messages (chat_client self)) as [[[val]|e] w'];
    [|split; [reflexivity | left; reflexivity]].
  destruct val as [|v|]; try (split; [reflexivity | left; reflexivity]).
  split.
  - simpl. unfold get, bind, set_name, set_age, modify, ret. simpl.
    destruct (is_None (name (user_info self)) && truthy_name (name v)); simpl;
      destruct (is_None (age (user_info self)) && truthy_age (age v)); reflexivity.
  - right. exists v. split; [reflexivity|].
    unfold absorb. simpl. unfold get, bind, set_name, set_age, modify, ret. simpl.
    destruct (is_None (name (user_info self)) && truthy_name (name v)); simpl;
      destruct (is_None (age (user_info self)) && truthy_age (age v)); simpl;
      destruct (user_info self); reflexivity.
Qed.

Lemma invoked_keeps_name (request_messages : list Framework.ChatMessage) (self : UserInfoMemory World) :
  name (user_info self) <> None ->
  name (user_info (snd (invoked request_messages self))) = name (user_info self).
Proof.
  intro H. destruct (invoked_spec request_messages self) as [_ [E | [v [_ E]]]];
    rewrite E; [reflexivity | now apply absorb_keeps_name].
Qed.

Lemma invoked_keeps_age (request_messages : list Framework.ChatMessage) (self : UserInfoMemory World) :
  age (user_info self) <> None ->
  age (user_info (snd (invoked request_messages self))) = age (user_info self).
Proof.
  intro H. destruct (invoked_spec request_messages self) as [_ [E | [v [_ E]]]];
    rewrite E; [reflexivity | now apply absorb_keeps_age].
Qed.

(** A sequence of calls is the calls one after the other. *)
Lemma invoked_each_cons (request_messages : list Framework.ChatMessage)
    (rest : list (list Framework.ChatMessage)) (self : UserInfoMemory World) :
  snd (invoked_each (request_messages :: rest) self)
  = snd (invoked_each rest (snd (invoked request_messages self))).
Proof.
  simpl. unfold bind.
  destruct (invoked_spec request_messages self) as [Hret _].
  destruct (invoked request_messages self) as [o self']. simpl in *. now rewrite Hret.
Qed.

Lemma invoked_each_keeps (calls : list (list Framework.ChatMessage)) (self : UserInfoMemory World) :
  (name (user_info self) <> None ->
   name (user_info (snd (invoked_each calls self))) = name (user_info self))
  /\ (age (user_info self) <> None ->
      age (user_info (snd (invoked_each calls self))) = age (user_info self)).
Proof.
  revert self. induction calls as [|c calls IH]; intro self; [split; reflexivity|].
  rewrite invoked_each_cons.
  destruct (IH (snd (invoked c self))) as [IHn IHa].
  split; intro H.
  - rewrite IHn; rewrite invoked_keeps_name; auto.
  - rewrite IHa; rewrite invoked_keeps_age; auto.
Qed.

(** The instructions of [invoking], field by field. *)
Lemma invoking_instructions_spec (u : UserInfo) :
  (In ask_name (invoking_instructions u) <-> name u = None)
  /\ (In ask_age (invoking_instructions u) <-> age u = None)
  /\ (forall n, name u = Some n -> In (state_name n) (invoking_instructions u))
  /\ (forall a, age u = Some a -> In (state_age a) (invoking_instructions u)).
Proof.
  destruct u as [[n|] [a|]]; unfold invoking_instructions; simpl;
    repeat split; intros; try tauto; try discriminate;
    repeat match goal with
           | H : _ \/ _ |- _ => destruct H
           | H : False |- _ => destruct H
           | H : Some _ = Some _ |- _ => injection H as <-
           | H : ask_name = _ |- _ => discriminate H
           | H : ask_age = _ |- _ => discriminate H
           | H : state_name _ = _ |- _ => discriminate H
           | H : state_age _ = _ |- _ => discriminate H
           end; auto.
Qed.

(** A failed extraction leaves [user_info] as it was. *)
Lemma invoked_extraction_failure (request_messages : list Framework.ChatMessage)
    (self : UserInfoMemory World) (e : exn) (w' : World) :
  get_response request_messages (chat_client self) = (Raise e, w') ->
  fst (invoked request_messages self) = Ret tt
  /\ user_info (snd (invoked request_messages self)) = user_info self.
Proof.
  intro H. unfold ContextProvider.invoked, bind, get.
  destruct ((is_None (name (user_info self)) || is_None (age (user_info self)))
            && negb (Nat.eqb (List.length (filter is_user request_messages)) 0));
    [|split; reflexivity].
  unfold try_except, bind, call_get_response, zoom. rewrite H. split; reflexivity.
Qed.

(** C9. [UserInfoMemory] is write-once.  Once the name (respectively the
    age) is known, no sequence of calls to [invoked] changes it, whatever
    the chat client answers.  [invoking] returns, without touching the
    memory, the instructions that ask for exactly the fields still unknown
    and state the known ones.  A call to [invoked] in which the extraction
    raises leaves [user_info] as it was. *)
Theorem user_info_write_once (calls : list (list Framework.ChatMessage))
    (request_messages messages : list Framework.ChatMessage) (self : UserInfoMemory World) :
  (name (user_info self) <> None ->
   name (user_info (snd (invoked_each calls self))) = name (user_info self))
  /\ (age (user_info self) <> None ->
      age (user_info (snd (invoked_each calls self))) = age (user_info self))
  /\ invoking messages self
     = (Ret {| instructions := join " " (invoking_instructions (user_info self)) |}, self)
  /\ (In ask_name (invoking_instructions (user_info self)) <-> name (user_info self) = None)
  /\ (In ask_age (invoking_instructions (user_info self)) <-> age (user_info self) = None)
  /\ (forall n, name (user_info self) = Some n ->
        In (state_name n) (invoking_instructions (user_info self)))
  /\ (forall a, age (user_info self) = Some a ->
        In (state_age a) (invoking_instructions (user_info self)))
  /\ (forall e w', get_response request_messages (chat_client self) = (Raise e, w') ->
        user_info (snd (invoked request_messages self)) = user_info self).
Proof.
  destruct (invoked_each_keeps calls self) as [Hn Ha].
  destruct (invoking_instructions_spec (user_info self)) as [H1 [H2 [H3 H4]]].
  repeat split; try assumption; try (apply H1); try (apply H2).
  intros e w' H. eapply invoked_extraction_failure; eassumption.
Qed.

End ContextProviderFacts.

Section ContextProviderExamples.

Import ContextProvider.

(** The conversation of [main]: nothing is known after the first question,
    the name after the second message and the age after the third; a later
    message that names somebody else changes nothing. *)
Example memory_of_main :
  user_info (snd (invoked_each StandIn.get_response
                    [[StandIn.user "Hello, what is the square root of 9?"];
                     [StandIn.user "My Name is Bob"];
                     [StandIn.user "And where I am 27 years old"];
                     [StandIn.user "Call me Alice, I am 30"]]
                    StandIn.new_memory))
  = {| name := Some "Bob"%string; age := Some 27%Z |}.
Proof. reflexivity. Qed.

Example instructions_when_nothing_is_known :
  fst (invoking [StandIn.user "Hello"] StandIn.new_memory)
  = Ret {| instructions := (ask_name ++ " " ++ ask_age)%string |}.
Proof. reflexivity. Qed.

Example instructions_when_the_name_is_known :
  fst (invoking [StandIn.user "I am 27"]
         (snd (invoked StandIn.get_response [StandIn.user "My Name is Bob"] StandIn.new_memory)))
  = Ret {| instructions := ("The user's name is Bob. " ++ ask_age)%string |}.
Proof. reflexivity. Qed.

End ContextProviderExamples.

(** ** The agent runtime *)

Section AgentRuntimeFacts.

Import AgentRuntime.

Variables Globals Args : Type.
Variable model : list (Input Args) -> list (FunctionCall Args * string) -> ModelTurn Args.
Variable tools : list (AIFunction Globals Args).

Local Abbreviation Session := (AgentRuntime.Session Globals Args).

Lemma existsb_false_In {A} (f : A -> bool) (l : list A) (x : A) :
  existsb f l = false -> In x l -> f x = false.
Proof.
  induction l as [|y l IH]; simpl; [tauto|].
  intros H [->|Hin]; apply orb_false_iff in H; destruct H; auto.
Qed.

(** Executing a call adds to the trace the execution of that call, if
    anything. *)
Lemma execute_trace (c : FunctionCall Args) (s : Session) :
  exists evs,
    trace (snd (execute tools c s)) = trace s ++ evs
    /\ forall c', In (ToolExecuted c') evs -> c' = c.
Proof.
  unfold execute. destruct (find_tool (function_name c) tools) as [t|].
  - exists [ToolExecuted c]. unfold bind, log, modify, zoom, ret. simpl.
    destruct (invoke t (arguments c) (globals s)) as [[out|e] g']; simpl;
      (split; [reflexivity|]); intros c' [H|[]]; now injection H.
  - exists []. simpl. rewrite app_nil_r. split; [reflexivity | intros c' []].
Qed.

Lemma execute_all_trace (calls : list (FunctionCall Args)) (s : Session) :
  exists evs,
    trace (snd (execute_all tools calls s)) = trace s ++ evs
    /\ forall c, In (ToolExecuted c) evs -> In c calls.
Proof.
  revert s. induction calls as [|c calls IH]; intro s; simpl.
  - exists []. rewrite app_nil_r. split; [reflexivity | intros c []].
  - unfold bind.
    destruct (execute_trace c s) as [evs1 [H1 Hc1]].
    destruct (execute tools c s) as [[r|e] s1]; simpl in H1.
    + destruct (IH s1) as [evs2 [H2 Hc2]].
      destruct (execute_all tools calls s1) as [[rs|e] s2]; simpl in H2 |- *;
        exists (evs1 ++ evs2); rewrite H2, H1, app_assoc;
        (split; [reflexivity|]); intros c' Hin; apply in_app_or in Hin;
        destruct Hin as [Hin|Hin]; [left; symmetry; auto | right; auto
                                   |left; symmetry; auto | right; auto].
    + exists evs1. simpl. split; [exact H1|].
      intros c' Hin. left. symmetry. auto.
Qed.

(** Resuming executes approved calls only. *)
Lemma resume_trace (decisions : list (bool * FunctionCall Args)) (s : Session) :
  exists evs,
    trace (snd (resume tools decisions s)) = trace s ++ evs
    /\ forall c, In (ToolExecuted c) evs -> In (true, c) decisions.
Proof.
  revert s. induction decisions as [|[approved c] decisions IH]; intro s; simpl.
  - exists []. rewrite app_nil_r. split; [reflexivity | intros c []].
  - unfold bind at 1.
    assert (Hfirst : exists evs1,
               trace (snd ((if approved then execute tools c
                            else (log (ToolRejected c) ;;; ret (c, "rejected"%string))%py) s))
               = trace s ++ evs1
               /\ forall c', In (ToolExecuted c') evs1 -> (true, c') = (approved, c)).
    { destruct approved.
      - destruct (execute_trace c s) as [evs1 [H1 Hc1]]. exists evs1.
        split; [exact H1|]. intros c' Hin. now rewrite (Hc1 c' Hin).
      - exists [ToolRejected c]. split; [reflexivity|].
        intros c' [H|[]]. discriminate H. }
    destruct Hfirst as [evs1 [H1 Hc1]].
    destruct ((if approved then execute tools c
               else (log (ToolRejected c) ;;; ret (c, "rejected"%string))%py) s)
      as [[r|e] s1]; simpl in H1.
    + unfold bind.
      destruct (IH s1) as [evs2 [H2 Hc2]].
      destruct (resume tools decisions s1) as [[rs|e] s2]; simpl in H2 |- *;
        exists (evs1 ++ evs2); rewrite H2, H1, app_assoc;
        (split; [reflexivity|]); intros c' Hin; apply in_app_or in Hin;
        destruct Hin as [Hin|Hin]; [left; symmetry; auto | right; auto
                                   |left; symmetry; auto | right; auto].
    + exists evs1. simpl. split; [exact H1|].
      intros c' Hin. left. symmetry. auto.
Qed.

(** The turns of the model execute no gated tool, and a result that carries
    requests comes with the suspension that asked for them. *)
Lemma turns_trace (fuel : nat) (inputs : list (Input Args))
    (results : list (FunctionCall Args * string)) (s : Session) :
  exists evs,
    trace (snd (turns model fuel tools inputs results s)) = trace s ++ evs
    /\ (forall c, In (ToolExecuted c) evs -> requires_approval tools c = false)
    /\ (forall r, fst (turns model fuel tools inputs results s) = Ret r ->
          user_input_requests r <> [] ->
          In (Suspended (user_input_requests r)) evs /\ text r = ""%string).
Proof.
  revert results s. induction fuel as [|fuel IH]; intros results s; simpl.
  - exists []. rewrite app_nil_r. split; [reflexivity|].
    split; [intros c [] | intros r H; discriminate H].
  - destruct (model inputs results) as [t|calls].
    + exists [Completed t]. split; [reflexivity|].
      split; [intros c [H|[]]; discriminate H|].
      intros r H. injection H as <-. simpl. congruence.
    + destruct (existsb (requires_approval tools) calls) eqn:Hgated.
      * exists [Suspended (filter (requires_approval tools) calls)].
        split; [reflexivity|]. split; [intros c [H|[]]; discriminate H|].
        intros r H. injection H as <-. simpl. auto.
      * unfold bind.
        destruct (execute_all_trace calls s) as [evs1 [H1 Hc1]].
        destruct (execute_all tools calls s) as [[rs|e] s1]; simpl in H1.
        -- destruct (IH (results ++ rs) s1) as [evs2 [H2 [Hc2 Hr2]]].
           exists (evs1 ++ evs2). rewrite H2, H1, app_assoc.
           split; [reflexivity|]. split.
           ++ intros c Hin. apply in_app_or in Hin. destruct Hin as [Hin|Hin].
              ** apply existsb_false_In with (l := calls); auto.
              ** auto.
           ++ intros r Hr Hne. destruct (Hr2 r Hr Hne) as [Hin Ht].
              split; [apply in_or_app; now right | exact Ht].
        -- exists evs1. simpl. split; [exact H1|]. split.
           ++ intros c Hin. apply existsb_false_In with (l := calls); auto.
           ++ intros r H; discriminate H.
Qed.

(** A run executes the body of a gated tool only for a call whose approval
    is in its input, and a result that carries requests comes with the
    suspension that asked for them. *)
Lemma run_trace (fuel : nat) (inputs : list (Input Args)) (s : Session) :
  exists evs,
    trace (snd (run model fuel tools inputs s)) = trace s ++ evs
    /\ (forall c, In (ToolExecuted c) evs -> requires_approval tools c = true ->
                  In (true, c) (approvals inputs))
    /\ (forall r, fst (run model fuel tools inputs s) = Ret r ->
          user_input_requests r <> [] ->
          In (Suspended (user_input_requests r)) evs /\ text r = ""%string).
Proof.
  unfold run, bind.
  destruct (resume_trace (approvals inputs) s) as [evs1 [H1 Hc1]].
  destruct (resume tools (approvals inputs) s) as [[rs|e] s1]; simpl in H1.
  - destruct (turns_trace fuel inputs rs s1) as [evs2 [H2 [Hc2 Hr2]]].
    exists (evs1 ++ evs2). rewrite H2, H1, app_assoc.
    split; [reflexivity|]. split.
    + intros c Hin Hg. apply in_app_or in Hin. destruct Hin as [Hin|Hin]; auto.
      rewrite (Hc2 c Hin) in Hg. discriminate Hg.
    + intros r Hr Hne. destruct (Hr2 r Hr Hne) as [Hin Ht].
      split; [apply in_or_app; now right | exact Ht].
  - exists evs1. simpl. split; [exact H1|]. split.
    + intros c Hin _. auto.
    + intros r H; discriminate H.
Qed.

(** Appending events keeps the trace property when the gated executions
    among them were asked approval for in the trace so far. *)
Lemma approved_before_app (tr evs : list (Event Args)) :
  approved_before tools tr ->
  (forall c, In (ToolExecuted c) evs -> requires_approval tools c = true ->
             exists requests, In (Suspended requests) tr /\ In c requests) ->
  approved_before tools (tr ++ evs).
Proof.
  intros Htr Hevs l1 c l2 Heq Hg.
  apply app_eq_app in Heq. destruct Heq as [l [[H1 H2] | [H1 H2]]].
  - destruct l as [|ev l]; simpl in H2.
    + (* the execution is the first of the new events *)
      rewrite app_nil_r in H1. subst l1.
      apply Hevs; auto. rewrite <- H2. now left.
    + (* the execution lies in the trace so far *)
      injection H2 as <- _. now apply (Htr l1 c l).
  - (* the execution lies among the new events *)
    destruct (Hevs c) as [requests [Hs Hc]]; auto.
    + rewrite H2. apply in_elt.
    + exists requests. split; auto. rewrite H1. apply in_or_app. now left.
Qed.

End AgentRuntimeFacts.

(** ** 01-agent_types/04-local_tools.py: the approval loop *)

Section LoanFacts.

Import AgentRuntime LocalTools.

Variable repr : float -> string.
Variable model : list (Input Args) -> list (FunctionCall Args * string) -> ModelTurn Args.

Local Abbreviation tools := (loan_tools repr).

(** Of the tools of the loan request, [get_loan] alone requires approval. *)
Lemma gated_iff_get_loan (c : FunctionCall Args) :
  requires_approval tools c = true <-> function_name c = "get_loan"%string.
Proof.
  unfold requires_approval, find_tool, loan_tools, get_balance_tool, make_payment, get_loan.
  cbn [app find name approval_mode].
  destruct (String.eqb_spec "get_balance" (function_name c)) as [E|_].
  - rewrite <- E. split; discriminate.
  - destruct (String.eqb_spec "make_payment" (function_name c)) as [E|_].
    + rewrite <- E. split; discriminate.
    + destruct (String.eqb_spec "get_loan" (function_name c)) as [E|N].
      * split; [intros _; now symmetry | reflexivity].
      * split; [discriminate | intro E; congruence].
Qed.

(** The approvals that the loop over the requests adds to the input are
    answers to these requests; the session is not touched. *)
Lemma ask_approvals_spec (requests : list (FunctionCall Args)) (new_inputs : list (Input Args))
    (p : Program) :
  session (snd (ask_approvals requests new_inputs p)) = session p
  /\ forall inputs, fst (ask_approvals requests new_inputs p) = Ret inputs ->
       forall b c, In (b, c) (approvals inputs) ->
                   In (b, c) (approvals new_inputs) \/ In c requests.
Proof.
  revert new_inputs p. induction requests as [|r requests IH]; intros new_inputs p; simpl.
  - split; [reflexivity|]. intros inputs H. injection H as <-. auto.
  - unfold bind, input. destruct (stdin p) as [|line rest].
    + split; [reflexivity | intros inputs H; discriminate H].
    + match goal with
      | |- context [ask_approvals requests ?i ?q] => destruct (IH i q) as [Hs Hi]
      end.
      split; [exact Hs|].
      intros inputs H b c Hin. destruct (Hi inputs H b c Hin) as [Hold|Hreq]; [|auto].
      unfold approvals in Hold. rewrite !flat_map_app in Hold. simpl in Hold.
      rewrite app_nil_r in Hold. apply in_app_or in Hold.
      destruct Hold as [Hold|[Hnew|[]]]; [left; exact Hold|].
      injection Hnew as _ <-. auto.
Qed.

(** The loop keeps the trace property, provided the requests of the result
    it starts from were logged by a suspension. *)
Lemma approval_loop_approved (rounds fuel : nat) (query : string) (result : AgentRunResponse Args)
    (p : Program) :
  approved_before tools (trace (session p)) ->
  (user_input_requests result <> [] ->
   In (Suspended (user_input_requests result)) (trace (session p))) ->
  approved_before tools
    (trace (session (snd (approval_loop repr model rounds fuel query result p)))).
Proof.
  revert result p. induction rounds as [|rounds IH]; intros result p Hinv Hreq; simpl.
  - destruct (user_input_requests result); exact Hinv.
  - destruct (user_input_requests result) as [|r0 rs] eqn:Hrs; [exact Hinv|].
    unfold bind.
    destruct (ask_approvals_spec (r0 :: rs) [Query query] p) as [Hs Hi].
    destruct (ask_approvals (r0 :: rs) [Query query] p) as [[new_inputs|e] p1];
      simpl in Hs |- *; [|rewrite Hs; exact Hinv].
    unfold agent_run, zoom.
    destruct (run_trace model tools fuel new_inputs (session p1)) as [evs [Ht [Hc Hr]]].
    destruct (run model fuel tools new_inputs (session p1)) as [o s1] eqn:Hrun.
    simpl in Ht, Hc, Hr.
    assert (Hinv1 : approved_before tools (trace s1)).
    { rewrite Ht, Hs. apply approved_before_app; [exact Hinv|].
      intros c Hin Hg. exists (r0 :: rs). split.
      - apply Hreq. discriminate.
      - destruct (Hi new_inputs eq_refl true c (Hc c Hin Hg)) as [[]|H]. exact H. }
    destruct o as [result1|e]; [|exact Hinv1].
    apply IH; simpl; [exact Hinv1|].
    intro Hne. rewrite Ht. apply in_or_app. right. now apply Hr.
Qed.

(** C7. The loan tool is approval-gated, and it is the only such tool of
    the request.  A turn in which the model calls a gated tool suspends the
    run: the result carries the non-empty set of pending requests and no
    text, and no tool body has run in that turn.  In any run, the body of
    [get_loan] is executed only for a call whose approval is in the input of
    the run.  Hence in the loan request of [main] (the first run and the
    approval loop) every execution of [get_loan] comes after a suspension
    that returned a request for that very call. *)
Theorem loan_waits_for_approval (rounds fuel : nat) (p : Program) :
  approval_mode (get_loan repr) = always_require
  /\ (forall c, requires_approval tools c = true <-> function_name c = "get_loan"%string)
  /\ (forall inputs results s calls,
        model inputs results = Call calls ->
        existsb (requires_approval tools) calls = true ->
        turns model (S fuel) tools inputs results s
        = (Ret {| text := "";
                  user_input_requests := filter (requires_approval tools) calls |},
           {| globals := globals s;
              trace := trace s ++ [Suspended (filter (requires_approval tools) calls)] |})
        /\ filter (requires_approval tools) calls <> [])
  /\ (forall inputs s,
        exists evs,
          trace (snd (run model fuel tools inputs s)) = trace s ++ evs
          /\ forall c, In (ToolExecuted c) evs -> function_name c = "get_loan"%string ->
                       In (true, c) (approvals inputs))
  /\ (trace (session p) = [] ->
      approved_before tools
        (trace (session (snd (request_loan repr model rounds fuel p))))).
Proof.
  split; [reflexivity|]. split; [exact gated_iff_get_loan|]. split; [|split].
  - intros inputs results s calls Hm Hg. simpl. rewrite Hm, Hg. split; [reflexivity|].
    apply existsb_exists in Hg. destruct Hg as [c [Hin Hc]].
    intro Hnil.
    assert (Hf : In c (filter (requires_approval tools) calls))
      by (apply filter_In; auto).
    rewrite Hnil in Hf. exact Hf.
  - intros inputs s.
    destruct (run_trace model tools fuel inputs s) as [evs [Ht [Hc _]]].
    exists evs. split; [exact Ht|].
    intros c Hin Hn. apply Hc; [exact Hin | now apply gated_iff_get_loan].
  - intro Hempty. unfold request_loan, bind, agent_run, zoom.
    destruct (run_trace model tools fuel [Query loan_query] (session p)) as [evs [Ht [Hc Hr]]].
    destruct (run model fuel tools [Query loan_query] (session p)) as [o s1] eqn:Hrun.
    simpl in Ht, Hc, Hr.
    assert (Hinv1 : approved_before tools (trace s1)).
    { rewrite Ht, Hempty. apply approved_before_app.
      - intros l1 c l2 H. destruct l1; discriminate H.
      - intros c Hin Hg. destruct (Hc c Hin Hg). }
    destruct o as [result|e]; [|exact Hinv1].
    apply approval_loop_approved; simpl; [exact Hinv1|].
    intro Hne. rewrite Ht. apply in_or_app. right. now apply Hr.
Qed.

End LoanFacts.

Section LoanExamples.

Import AgentRuntime LocalTools.

Local Open Scope float_scope.

(** With the answer "y" the request is suspended, approved and executed,
    and the balance rises by the loan. *)
Example loan_approved :
  let p := snd (request_loan StandIn.repr StandIn.loan_model 3 3 (StandIn.start ["y"%string])) in
  trace (session p)
  = [Suspended [StandIn.loan_call]; ToolExecuted StandIn.loan_call;
     Completed "The loan was granted."]
  /\ balance (globals (session p)) = 250.
Proof. split; reflexivity. Qed.

(** With another answer the body of the tool does not run. *)
Example loan_refused :
  let p := snd (request_loan StandIn.repr StandIn.loan_model 3 3 (StandIn.start ["n"%string])) in
  trace (session p)
  = [Suspended [StandIn.loan_call]; ToolRejected StandIn.loan_call;
     Completed "The loan was not approved."]
  /\ balance (globals (session p)) = 100.
Proof. split; reflexivity. Qed.

(** The first run alone returns the pending request and no text. *)
Example loan_first_run_suspends :
  fst (agent_run StandIn.repr StandIn.loan_model 3 [Query loan_query] (StandIn.start []))
  = Ret {| text := ""; user_input_requests := [StandIn.loan_call] |}.
Proof. reflexivity. Qed.

End LoanExamples.

(* ===================================================================== *)
(** * Part III: further properties of the samples *)
(* ===================================================================== *)

(** ** 04-workflows/01-basic.py: the pipeline on any input *)

Section BasicPipeline.

Import Workflow.










End BasicPipeline.

(** ** 04-workflows/03-control_flow.py: the runs of the routing graph *)

Section ControlFlowRuns.

Import Workflow ControlFlow.

Variable World : Type.
Variable parse_detection : string -> outcome DetectionResult.
Variable parse_email : string -> outcome EmailResponse.
Variable spam_agent : list Framework.ChatMessage -> M World AgentRunResponse.
Variable email_agent : list Framework.ChatMessage -> M World AgentRunResponse.

Local Abbreviation run_email :=
  (ControlFlow.run_email parse_detection parse_email spam_agent email_agent).

Ltac step_run :=
  cbn [loop state pending]; unfold step at 1; cbn;
  unfold bind, in_world, zoom, lift, ret, raise, try_except, accepts; cbn.

Ltac more_fuel fuel := destruct fuel as [|fuel]; [lia|].

Ltac start_run fuel :=
  unfold ControlFlow.run_email; cbn -[loop];
  eexists; split; [reflexivity|]; unfold run.

(** X3. When the classifier's reply parses as a DetectionResult flagged as
    spam, the run yields exactly one output, "Email marked as spam: "
    followed by the reason, and ends idle after two handler calls: only the
    classifier and the spam handler are started, the email assistant is
    never called. *)
Theorem spam_run (email : string) (w w1 : World) (reply : AgentRunResponse)
    (d : DetectionResult) (n : nat) :
  spam_agent [{| Framework.role := Framework.USER; Framework.text := email |}] w = (Ret reply, w1) ->
  parse_detection (text reply) = Ret d ->
  is_spam d = true ->
  exists r,
    run_email email w (2 + n) = Some r
    /\ get_outputs r = [("Email marked as spam: " ++ reason d)%string]
    /\ get_final_state r = IDLE
    /\ started r = ["spam_detection_agent"; "handle_spam"]
    /\ world r = w1.
Proof.
  intros Hagent Hparse Hspam.
  remember (2 + n) as fuel eqn:Hfuel.
  start_run fuel.
  more_fuel fuel.
  step_run. rewrite Hagent; cbn.
  unfold try_except, bind, lift, ret; cbn.
  rewrite Hparse, Hspam; cbn.
  more_fuel fuel.
  step_run. rewrite Hparse; cbn. rewrite Hspam; cbn.
  destruct fuel; repeat split; try reflexivity; simpl; tauto.
Qed.

(** X4. When the classifier's reply parses as a DetectionResult that is
    not spam and the assistant's reply parses as an EmailResponse, the
    assistant is asked with a single user message holding the email content
    of the classification, and the run yields exactly one output, "Email
    sent:" and on the next line the drafted response; it ends idle after
    four handler calls, one per executor of the non-spam path. *)
Theorem legitimate_run (email : string) (w w1 w2 : World) (reply reply2 : AgentRunResponse)
    (d : DetectionResult) (em : EmailResponse) (n : nat) :
  spam_agent [{| Framework.role := Framework.USER; Framework.text := email |}] w = (Ret reply, w1) ->
  parse_detection (text reply) = Ret d ->
  is_spam d = false ->
  email_agent [{| Framework.role := Framework.USER; Framework.text := email_content d |}] w1
    = (Ret reply2, w2) ->
  parse_email (text reply2) = Ret em ->
  exists r,
    run_email email w (4 + n) = Some r
    /\ get_outputs r = [("Email sent:" ++ nl ++ response em)%string]
    /\ get_final_state r = IDLE
    /\ started r = ["spam_detection_agent"; "to_email_assistant_request";
                    "email_assistant_agent"; "send_email"]
    /\ world r = w2.
Proof.
  intros Hagent Hparse Hspam Hassist Hemail.
  remember (4 + n) as fuel eqn:Hfuel.
  start_run fuel.
  more_fuel fuel.
  step_run. rewrite Hagent; cbn.
  unfold try_except, bind, lift, ret; cbn.
  rewrite Hparse, Hspam; cbn.
  more_fuel fuel.
  step_run. rewrite Hparse; cbn.
  more_fuel fuel.
  step_run. rewrite Hassist; cbn.
  more_fuel fuel.
  step_run. rewrite Hemail; cbn.
  destruct fuel; repeat split; try reflexivity; simpl; tauto.
Qed.

(** X5. When the classifier's reply does not parse as a DetectionResult,
    neither edge out of the classifier fires: the run ends idle after the
    classifier alone has run, with no output and no message delivered, so
    the email is silently dropped. *)
Theorem unparsed_classification_is_dropped (email : string) (w w1 : World)
    (reply : AgentRunResponse) (e : exn) (n : nat) :
  spam_agent [{| Framework.role := Framework.USER; Framework.text := email |}] w = (Ret reply, w1) ->
  parse_detection (text reply) = Raise e ->
  exists r,
    run_email email w (1 + n) = Some r
    /\ get_outputs r = []
    /\ get_final_state r = IDLE
    /\ events r = [ExecutorStarted "spam_detection_agent";
                   ExecutorCompleted "spam_detection_agent"].
Proof.
  intros Hagent Hparse.
  remember (1 + n) as fuel eqn:Hfuel.
  start_run fuel.
  more_fuel fuel.
  step_run. rewrite Hagent; cbn.
  unfold try_except, bind, lift, ret; cbn.
  rewrite Hparse; cbn.
  destruct fuel; repeat split; try reflexivity; simpl; tauto.
Qed.


(** X7. A failure of the classifier's call fails the run at its first
    step: the final state is failed, nothing is yielded and no other
    executor is started. *)
Theorem classifier_failure_fails_run (email : string) (w w1 : World) (e : exn) (n : nat) :
  spam_agent [{| Framework.role := Framework.USER; Framework.text := email |}] w = (Raise e, w1) ->
  exists r,
    run_email email w (1 + n) = Some r
    /\ get_outputs r = []
    /\ get_final_state r = FAILED
    /\ events r = [ExecutorStarted "spam_detection_agent";
                   ExecutorFailed "spam_detection_agent" e].
Proof.
  intros Hagent.
  remember (1 + n) as fuel eqn:Hfuel.
  start_run fuel.
  more_fuel fuel.
  step_run. rewrite Hagent; cbn.
  destruct fuel; repeat split; try reflexivity; simpl; tauto.
Qed.

(** X8. On a legitimate email whose drafted reply does not parse as an
    EmailResponse, the last executor raises and the run fails with no
    output, after the three executors before it have completed. *)
Theorem unparsed_reply_fails_run (email : string) (w w1 w2 : World)
    (reply reply2 : AgentRunResponse) (d : DetectionResult) (e : exn) (n : nat) :
  spam_agent [{| Framework.role := Framework.USER; Framework.text := email |}] w = (Ret reply, w1) ->
  parse_detection (text reply) = Ret d ->
  is_spam d = false ->
  email_agent [{| Framework.role := Framework.USER; Framework.text := email_content d |}] w1
    = (Ret reply2, w2) ->
  parse_email (text reply2) = Raise e ->
  exists r,
    run_email email w (4 + n) = Some r
    /\ get_outputs r = []
    /\ get_final_state r = FAILED
    /\ started r = ["spam_detection_agent"; "to_email_assistant_request";
                    "email_assistant_agent"; "send_email"]
    /\ In (ExecutorFailed "send_email" e) (events r).
Proof.
  intros Hagent Hparse Hspam Hassist Hemail.
  remember (4 + n) as fuel eqn:Hfuel.
  start_run fuel.
  more_fuel fuel.
  step_run. rewrite Hagent; cbn.
  unfold try_except, bind, lift, ret; cbn.
  rewrite Hparse, Hspam; cbn.
  more_fuel fuel.
  step_run. rewrite Hparse; cbn.
  more_fuel fuel.
  step_run. rewrite Hassist; cbn.
  more_fuel fuel.
  step_run. rewrite Hemail; cbn.
  destruct fuel; repeat split; try reflexivity; simpl; tauto.
Qed.

End ControlFlowRuns.

Section ControlFlowRunExamples.

Import Workflow ControlFlow.

Local Abbreviation stand_in_run spam_agent email_agent :=
  (ControlFlow.run_email StandIn.parse_detection StandIn.parse_email spam_agent email_agent).

(** A prize announcement is marked as spam. *)
Lemma spam_run_witness :
  exists r,
    stand_in_run StandIn.spam_agent StandIn.email_agent "You won a PRIZE" tt 2 = Some r
    /\ get_outputs r = ["Email marked as spam: unsolicited offer"%string]
    /\ get_final_state r = IDLE
    /\ started r = ["spam_detection_agent"; "handle_spam"]
    /\ world r = tt.
Proof.
  exact (@spam_run unit StandIn.parse_detection StandIn.parse_email
           StandIn.spam_agent StandIn.email_agent "You won a PRIZE" tt tt
           {| text := "spam: prize" |} StandIn.spam_detection 0
           eq_refl eq_refl eq_refl).
Defined.

(** A meeting follow-up is answered. *)
Lemma legitimate_run_witness :
  exists r,
    stand_in_run StandIn.spam_agent StandIn.email_agent "Team Meeting Follow-up" tt 4 = Some r
    /\ get_outputs r = [("Email sent:" ++ nl ++ "Thank you for the follow-up.")%string]
    /\ get_final_state r = IDLE
    /\ started r = ["spam_detection_agent"; "to_email_assistant_request";
                    "email_assistant_agent"; "send_email"]
    /\ world r = tt.
Proof.
  exact (@legitimate_run unit StandIn.parse_detection StandIn.parse_email
           StandIn.spam_agent StandIn.email_agent "Team Meeting Follow-up" tt tt tt
           {| text := "ham: meeting" |} {| text := "Thank you for the follow-up." |}
           StandIn.ham_detection {| response := "Thank you for the follow-up." |} 0
           eq_refl eq_refl eq_refl eq_refl eq_refl).
Defined.

(** A classifier that answers in prose leaves the email unhandled. *)
Lemma unparsed_classification_is_dropped_witness :
  exists r,
    stand_in_run StandIn.confused_agent StandIn.email_agent "Team Meeting Follow-up" tt 1 = Some r
    /\ get_outputs r = []
    /\ get_final_state r = IDLE
    /\ events r = [ExecutorStarted "spam_detection_agent";
                   ExecutorCompleted "spam_detection_agent"].
Proof.
  exact (@unparsed_classification_is_dropped unit StandIn.parse_detection StandIn.parse_email
           StandIn.confused_agent StandIn.email_agent "Team Meeting Follow-up" tt tt
           {| text := "I am not sure." |} (ValidationError "not a DetectionResult") 0
           eq_refl eq_refl).
Defined.


(** An unavailable classifier fails the run. *)
Lemma classifier_failure_fails_run_witness :
  exists r,
    stand_in_run StandIn.failing_agent StandIn.email_agent "Team Meeting Follow-up" tt 1 = Some r
    /\ get_outputs r = []
    /\ get_final_state r = FAILED
    /\ events r = [ExecutorStarted "spam_detection_agent";
                   ExecutorFailed "spam_detection_agent"
                     (ServiceError "the service is unavailable")].
Proof.
  exact (@classifier_failure_fails_run unit StandIn.parse_detection StandIn.parse_email
           StandIn.failing_agent StandIn.email_agent "Team Meeting Follow-up" tt tt
           (ServiceError "the service is unavailable") 0 eq_refl).
Defined.

(** An assistant that answers nothing fails the run at its last step. *)
Lemma unparsed_reply_fails_run_witness :
  exists r,
    stand_in_run StandIn.spam_agent StandIn.silent_agent "Team Meeting Follow-up" tt 4 = Some r
    /\ get_outputs r = []
    /\ get_final_state r = FAILED
    /\ started r = ["spam_detection_agent"; "to_email_assistant_request";
                    "email_assistant_agent"; "send_email"]
    /\ In (ExecutorFailed "send_email" (ValidationError "not an EmailResponse")) (events r).
Proof.
  exact (@unparsed_reply_fails_run unit StandIn.parse_detection StandIn.parse_email
           StandIn.spam_agent StandIn.silent_agent "Team Meeting Follow-up" tt tt tt
           {| text := "ham: meeting" |} {| text := EmptyString |}
           StandIn.ham_detection (ValidationError "not an EmailResponse") 0
           eq_refl eq_refl eq_refl eq_refl eq_refl).
Defined.

End ControlFlowRunExamples.

(** ** 03-extras/02-chat_message_store.py: updates, empty and broken states *)

Section ChatMessageStoreUpdates.

Import ChatMessageStore.

Variable Blob : Type.
Variable truthy : Blob -> bool.
Variable to_dict : ChatMessageStoreState -> Blob.
Variable from_dict : Blob -> outcome ChatMessageStoreState.

(** X9. [update_from_state] extends the store, it does not replace its
    content: updating a store that was just resumed from a serialized state
    with that same state again leaves every message in it twice. *)
Theorem restoring_twice_duplicates (store : CustomChatMessageStore) :
  (forall st, from_dict (to_dict st) = Ret st) ->
  (forall st, messages st <> [] -> truthy (to_dict st) = true) ->
  exists blob resumed,
    serialize to_dict store = (Ret blob, store)
    /\ deserialize truthy from_dict blob = Ret resumed
    /\ update_from_state truthy from_dict blob resumed
       = (Ret tt, {| _messages := _messages store ++ _messages store |}).
Proof.
  intros Hinv Htrue.
  exists (to_dict {| messages := _messages store |}), {| _messages := _messages store |}.
  split; [reflexivity|]. split.
  - unfold deserialize.
    rewrite (@update_from_serialized Blob truthy to_dict from_dict (_messages store) (init None) Hinv Htrue).
    reflexivity.
  - apply (@update_from_serialized Blob truthy to_dict from_dict (_messages store)
             {| _messages := _messages store |} Hinv Htrue).
Qed.

(** X10. A serialized state that is false as a condition ([None], an empty
    dictionary) is not decoded at all: [update_from_state] leaves the store
    as it is and [deserialize] returns an empty store, whatever [from_dict]
    would have made of it. *)
Theorem false_state_is_ignored (blob : Blob) (self : CustomChatMessageStore) :
  truthy blob = false ->
  update_from_state truthy from_dict blob self = (Ret tt, self)
  /\ deserialize truthy from_dict blob = Ret {| _messages := [] |}.
Proof.
  intro H. unfold deserialize, update_from_state. rewrite H. split; reflexivity.
Qed.

(** X11. A serialized state that [from_dict] rejects makes
    [update_from_state] raise with the store untouched, and [deserialize]
    raise the same exception instead of returning a store. *)
Theorem broken_state_raises (blob : Blob) (self : CustomChatMessageStore) (e : exn) :
  truthy blob = true ->
  from_dict blob = Raise e ->
  update_from_state truthy from_dict blob self = (Raise e, self)
  /\ deserialize truthy from_dict blob = Raise e.
Proof.
  intros Ht Hf. unfold deserialize, update_from_state, bind, lift.
  rewrite Ht, Hf. split; reflexivity.
Qed.

(** X12. A resumed conversation continues where the original stopped:
    messages added to the store obtained by deserializing come after the
    messages of the original store, which keep their order. *)
Theorem resumed_store_continues (store : CustomChatMessageStore)
    (later : list Framework.ChatMessage) :
  (forall st, from_dict (to_dict st) = Ret st) ->
  (forall st, messages st <> [] -> truthy (to_dict st) = true) ->
  exists blob resumed,
    serialize to_dict store = (Ret blob, store)
    /\ deserialize truthy from_dict blob = Ret resumed
    /\ fst ((add_messages later ;;; list_messages)%py resumed)
       = Ret (_messages store ++ later).
Proof.
  intros Hinv Htrue.
  exists (to_dict {| messages := _messages store |}), {| _messages := _messages store |}.
  split; [reflexivity|]. split; [|reflexivity].
  unfold deserialize.
  rewrite (@update_from_serialized Blob truthy to_dict from_dict (_messages store) (init None) Hinv Htrue).
  reflexivity.
Qed.

End ChatMessageStoreUpdates.

Section ChatMessageStoreUpdateExamples.

Import ChatMessageStore.

Lemma restoring_twice_duplicates_witness :
  exists blob resumed,
    serialize StandIn.to_dict (init (Some StandIn.tom_cruise))
      = (Ret blob, init (Some StandIn.tom_cruise))
    /\ deserialize StandIn.truthy StandIn.from_dict blob = Ret resumed
    /\ update_from_state StandIn.truthy StandIn.from_dict blob resumed
       = (Ret tt, {| _messages := _messages (init (Some StandIn.tom_cruise))
                                  ++ _messages (init (Some StandIn.tom_cruise)) |}).
Proof.
  exact (@restoring_twice_duplicates StandIn.Blob StandIn.truthy StandIn.to_dict
           StandIn.from_dict (init (Some StandIn.tom_cruise))
           stand_in_codec_inverts stand_in_codec_true).
Defined.

(** The empty dictionary is ignored although the stand-in [from_dict] would
    reject it. *)
Lemma false_state_is_ignored_witness :
  update_from_state StandIn.truthy StandIn.from_dict [] (init (Some StandIn.tom_cruise))
    = (Ret tt, init (Some StandIn.tom_cruise))
  /\ deserialize StandIn.truthy StandIn.from_dict [] = Ret {| _messages := [] |}.
Proof.
  exact (@false_state_is_ignored StandIn.Blob StandIn.truthy StandIn.from_dict
           [] (init (Some StandIn.tom_cruise)) eq_refl).
Defined.

(** A dictionary without the key of the messages is rejected. *)
Lemma broken_state_raises_witness :
  update_from_state StandIn.truthy StandIn.from_dict [("type"%string, [])]
    (init (Some StandIn.tom_cruise))
    = (Raise (ValidationError "messages"), init (Some StandIn.tom_cruise))
  /\ deserialize StandIn.truthy StandIn.from_dict [("type"%string, [])]
     = Raise (ValidationError "messages").
Proof.
  exact (@broken_state_raises StandIn.Blob StandIn.truthy StandIn.from_dict
           [("type"%string, [])] (init (Some StandIn.tom_cruise))
           (ValidationError "messages") eq_refl eq_refl).
Defined.

Lemma resumed_store_continues_witness :
  exists blob resumed,
    serialize StandIn.to_dict (init (Some StandIn.tom_cruise))
      = (Ret blob, init (Some StandIn.tom_cruise))
    /\ deserialize StandIn.truthy StandIn.from_dict blob = Ret resumed
    /\ fst ((add_messages [StandIn.user "and where is he from?"] ;;; list_messages)%py resumed)
       = Ret (_messages (init (Some StandIn.tom_cruise))
              ++ [StandIn.user "and where is he from?"]).
Proof.
  exact (@resumed_store_continues StandIn.Blob StandIn.truthy StandIn.to_dict
           StandIn.from_dict (init (Some StandIn.tom_cruise))
           [StandIn.user "and where is he from?"]
           stand_in_codec_inverts stand_in_codec_true).
Defined.

End ChatMessageStoreUpdateExamples.

(** ** 01-agent_types/04-local_tools.py: reading the approvals *)

Section ApprovalAnswers.

Import AgentRuntime LocalTools.

(** Lower-casing one character gives [y] for [y] and [Y] alone. *)
Lemma lower_char_is_y (c : ascii) :
  lower_char c = "y"%char <-> c = "y"%char \/ c = "Y"%char.
Proof.
  destruct c as [[] [] [] [] [] [] [] []]; cbv;
    split; intro H; try discriminate H; try (destruct H as [H|H]; discriminate H);
    auto.
Qed.

Lemma answer_is_yes (a : string) :
  String.eqb (lower a) "y" = true <-> a = "y"%string \/ a = "Y"%string.
Proof.
  rewrite String.eqb_eq.
  destruct a as [|c [|c' a']]; simpl.
  - split; [discriminate | intros [H|H]; discriminate H].
  - split.
    + intro H. injection H as H. apply lower_char_is_y in H.
      destruct H as [->| ->]; auto.
    + intros [H|H]; injection H as ->; reflexivity.
  - split; [discriminate | intros [H|H]; discriminate H].
Qed.

(** X13. With an answer on standard input for every pending request, the
    loop over the requests reads exactly one line per request, in order,
    and returns the inputs it was given followed, request by request, by the
    assistant's approval request and the user's decision on it; the lines
    after those are left unread and the agent session is not touched. *)
Theorem ask_approvals_reads_one_answer_each (requests : list (FunctionCall Args))
    (new_inputs : list (Input Args)) (p : Program) (answers rest : list string) :
  stdin p = answers ++ rest ->
  List.length answers = List.length requests ->
  ask_approvals requests new_inputs p
  = (Ret (new_inputs
          ++ flat_map (fun ra => exchange (fst ra) (snd ra)) (combine requests answers)),
     {| session := session p; stdin := rest |}).
Proof.
  revert new_inputs p answers.
  induction requests as [|r requests IH]; intros new_inputs p answers Hin Hlen.
  - destruct answers; [|discriminate Hlen]. simpl in *.
    rewrite app_nil_r. destruct p; simpl in *. now subst.
  - destruct answers as [|a answers]; [discriminate Hlen|].
    simpl in Hin, Hlen. injection Hlen as Hlen.
    cbn [ask_approvals]. unfold bind, input. rewrite Hin.
    rewrite (IH _ _ answers); [|reflexivity | exact Hlen].
    cbn [combine flat_map fst snd session stdin exchange].
    rewrite <- !app_assoc. reflexivity.
Qed.

(** X14. When standard input ends before every request is answered, the
    loop raises EOFError after reading all the lines there were; the agent
    session is not touched and no run is resumed. *)
Theorem ask_approvals_runs_out (requests : list (FunctionCall Args))
    (new_inputs : list (Input Args)) (p : Program) :
  List.length (stdin p) < List.length requests ->
  ask_approvals requests new_inputs p
  = (Raise EOFError, {| session := session p; stdin := [] |}).
Proof.
  revert new_inputs p.
  induction requests as [|r requests IH]; intros new_inputs p Hlen; [simpl in Hlen; lia|].
  cbn [ask_approvals]. unfold bind, input.
  destruct (stdin p) as [|a answers] eqn:Hin.
  - destruct p; simpl in *. now subst.
  - simpl in Hlen. rewrite IH; [reflexivity | simpl; lia].
Qed.

(** X15. A request is approved by the answers [y] and [Y] and by no other:
    any other line, [yes] or an empty line among them, is a refusal. *)
Theorem only_y_approves (request : FunctionCall Args) (query a : string)
    (rest : list string) (s : Session Globals Args) :
  exists approved,
    ask_approvals [request] [Query query] {| session := s; stdin := a :: rest |}
    = (Ret [Query query;
            Message {| role := Framework.ASSISTANT;
                       contents := [FunctionApprovalRequestContent request] |};
            Message {| role := Framework.USER;
                       contents := [FunctionApprovalResponseContent approved request] |}],
       {| session := s; stdin := rest |})
    /\ (approved = true <-> a = "y"%string \/ a = "Y"%string).
Proof.
  exists (String.eqb (lower a) "y"). split; [reflexivity | apply answer_is_yes].
Qed.

End ApprovalAnswers.

Section ApprovalAnswerExamples.

Import AgentRuntime LocalTools.

Lemma ask_approvals_reads_one_answer_each_witness :
  ask_approvals [StandIn.loan_call] [Query loan_query] (StandIn.start ["y"; "later"]%string)
  = (Ret ([Query loan_query]
          ++ flat_map (fun ra => exchange (fst ra) (snd ra))
               (combine [StandIn.loan_call] ["y"%string])),
     {| session := session (StandIn.start ["y"; "later"]%string); stdin := ["later"%string] |}).
Proof.
  exact (@ask_approvals_reads_one_answer_each [StandIn.loan_call] [Query loan_query]
           (StandIn.start ["y"; "later"]%string) ["y"%string] ["later"%string]
           eq_refl eq_refl).
Defined.

Lemma ask_approvals_runs_out_witness :
  ask_approvals [StandIn.loan_call; StandIn.loan_call] [Query loan_query]
    (StandIn.start ["y"%string])
  = (Raise EOFError, {| session := session (StandIn.start ["y"%string]); stdin := [] |}).
Proof.
  apply (@ask_approvals_runs_out [StandIn.loan_call; StandIn.loan_call] [Query loan_query]
           (StandIn.start ["y"%string])).
  simpl. lia.
Defined.

End ApprovalAnswerExamples.

(** ** 01-agent_types/04-local_tools.py: a refused loan *)

Section RefusedLoan.

Import AgentRuntime LocalTools.

Variable repr : float -> string.
Variable model : list (Input Args) -> list (FunctionCall Args * string) -> ModelTurn Args.

Local Abbreviation tools := (loan_tools repr).

(** With refusals alone on standard input, the inputs built by the loop
    over the requests carry no approval. *)
Lemma ask_approvals_refused (requests : list (FunctionCall Args)) (new_inputs : list (Input Args))
    (p : Program) :
  (forall a, In a (stdin p) -> String.eqb (lower a) "y" = false) ->
  (forall b c, In (b, c) (approvals new_inputs) -> b = false) ->
  (forall a, In a (stdin (snd (ask_approvals requests new_inputs p))) ->
             String.eqb (lower a) "y" = false)
  /\ session (snd (ask_approvals requests new_inputs p)) = session p
  /\ forall inputs, fst (ask_approvals requests new_inputs p) = Ret inputs ->
       forall b c, In (b, c) (approvals inputs) -> b = false.
Proof.
  revert new_inputs p. induction requests as [|r requests IH]; intros new_inputs p Hno Hold.
  - simpl. split; [exact Hno|]. split; [reflexivity|].
    intros inputs H. injection H as <-. exact Hold.
  - cbn [ask_approvals]. unfold bind, input.
    destruct (stdin p) as [|line rest] eqn:Hin.
    + simpl. rewrite Hin. split; [intros a []|]. split; [reflexivity|].
      intros inputs H; discriminate H.
    + match goal with
      | |- context [ask_approvals requests ?i ?q] => destruct (IH i q) as [A [B C]]
      end.
      * simpl. intros a Ha. apply Hno. now right.
      * intros b c Hbc. unfold approvals in Hbc. rewrite !flat_map_app in Hbc.
        simpl in Hbc. rewrite app_nil_r in Hbc. apply in_app_or in Hbc.
        destruct Hbc as [Hbc|[Hnew|[]]]; [exact (Hold b c Hbc)|].
        injection Hnew as <- _. apply Hno. now left.
      * split; [exact A | split; [exact B | exact C]].
Qed.

(** The loop keeps the trace free of executions of the loan tool as long
    as only refusals are read. *)
Lemma approval_loop_refused (rounds fuel : nat) (query : string) (result : AgentRunResponse Args)
    (p : Program) :
  (forall a, In a (stdin p) -> String.eqb (lower a) "y" = false) ->
  (forall c, In (ToolExecuted c) (trace (session p)) -> function_name c <> "get_loan"%string) ->
  forall c,
    In (ToolExecuted c)
       (trace (session (snd (approval_loop repr model rounds fuel query result p)))) ->
    function_name c <> "get_loan"%string.
Proof.
  revert result p. induction rounds as [|rounds IH]; intros result p Hno Htr; simpl.
  - destruct (user_input_requests result); exact Htr.
  - destruct (user_input_requests result) as [|r0 rs] eqn:Hrs; [exact Htr|].
    unfold bind.
    destruct (ask_approvals_refused (r0 :: rs) [Query query] p Hno) as [Hno1 [Hs Hi]];
      [intros b c []|].
    destruct (ask_approvals (r0 :: rs) [Query query] p) as [[new_inputs|e] p1];
      simpl in Hno1, Hs, Hi |- *; [|rewrite Hs; exact Htr].
    unfold agent_run, zoom.
    destruct (run_trace model tools fuel new_inputs (session p1)) as [evs [Ht [Hc _]]].
    destruct (run model fuel tools new_inputs (session p1)) as [o s1] eqn:Hrun.
    simpl in Ht, Hc.
    assert (Htr1 : forall c, In (ToolExecuted c) (trace s1) ->
                             function_name c <> "get_loan"%string).
    { intros c Hin Hname. rewrite Ht, Hs in Hin. apply in_app_or in Hin.
      destruct Hin as [Hin|Hin]; [exact (Htr c Hin Hname)|].
      assert (Hg : requires_approval tools c = true) by now apply gated_iff_get_loan.
      specialize (Hi new_inputs eq_refl true c (Hc c Hin Hg)). discriminate Hi. }
    destruct o as [result1|e]; [|exact Htr1].
    apply IH; simpl; assumption.
Qed.

(** X16. If every line the user types is a refusal (none is [y] or [Y]),
    the loan request of [main] never executes the body of the loan tool,
    whatever the model asks for and however often it asks again: a trace
    free of loan executions stays so through the first run and the whole
    approval loop. *)
Theorem refused_loan_never_runs (rounds fuel : nat) (p : Program) :
  (forall a, In a (stdin p) -> String.eqb (lower a) "y" = false) ->
  (forall c, In (ToolExecuted c) (trace (session p)) -> function_name c <> "get_loan"%string) ->
  forall c,
    In (ToolExecuted c) (trace (session (snd (request_loan repr model rounds fuel p)))) ->
    function_name c <> "get_loan"%string.
Proof.
  intros Hno Htr. unfold request_loan, bind, agent_run, zoom.
  destruct (run_trace model tools fuel [Query loan_query] (session p)) as [evs [Ht [Hc _]]].
  destruct (run model fuel tools [Query loan_query] (session p)) as [o s1] eqn:Hrun.
  simpl in Ht, Hc.
  assert (Htr1 : forall c, In (ToolExecuted c) (trace s1) ->
                           function_name c <> "get_loan"%string).
  { intros c Hin Hname. rewrite Ht in Hin. apply in_app_or in Hin.
    destruct Hin as [Hin|Hin]; [exact (Htr c Hin Hname)|].
    assert (Hg : requires_approval tools c = true) by now apply gated_iff_get_loan.
    destruct (Hc c Hin Hg). }
  destruct o as [result|e]; [|exact Htr1].
  apply approval_loop_refused; simpl; assumption.
Qed.

End RefusedLoan.

Section RefusedLoanExamples.

Import AgentRuntime LocalTools.

(** The answers [n] and [yes] refuse the loan of the stand-in model. *)
Lemma refused_loan_never_runs_witness :
  (forall a, In a ["n"; "yes"]%string -> String.eqb (lower a) "y" = false)
  /\ ~ In (ToolExecuted StandIn.loan_call)
        (trace (session (snd (request_loan StandIn.repr StandIn.loan_model 3 3
                                (StandIn.start ["n"; "yes"]%string))))).
Proof.
  assert (Hno : forall a, In a ["n"; "yes"]%string -> String.eqb (lower a) "y" = false)
    by (intros a [<-|[<-|[]]]; reflexivity).
  split; [exact Hno|].
  intro Hin.
  exact (@refused_loan_never_runs StandIn.repr StandIn.loan_model 3 3
           (StandIn.start ["n"; "yes"]%string) Hno (fun c (H : In _ []) => match H with end)
           StandIn.loan_call Hin eq_refl).
Defined.

End RefusedLoanExamples.

(** ** 03-extras/03-context_provider.py: when the memory learns *)

Section MemoryLearning.

Import ContextProvider.

Variable World : Type.
Variable get_response : list Framework.ChatMessage -> M World ChatResponse.

Local Abbreviation invoked := (ContextProvider.invoked get_response).
Local Abbreviation invoking := (ContextProvider.invoking (World := World)).

(** X17. [invoked] does not call the chat client at all, and leaves the
    whole memory as it is, when the name and the age are both known or when
    the request holds no message of the user. *)
Theorem invoked_skips_extraction (request_messages : list Framework.ChatMessage)
    (self : UserInfoMemory World) :
  (name (user_info self) <> None /\ age (user_info self) <> None)
  \/ filter is_user request_messages = [] ->
  invoked request_messages self = (Ret tt, self).
Proof.
  intro H. unfold ContextProvider.invoked, bind, get.
  destruct H as [[Hn Ha] | Hu].
  - destruct (name (user_info self)); [|congruence].
    destruct (age (user_info self)); [|congruence]. reflexivity.
  - rewrite Hu. simpl. rewrite andb_false_r. reflexivity.
Qed.


(** X19. An extracted value that is false as a condition counts as absent:
    when the client extracts the age 0 the age stays as it was, and when it
    extracts an empty name the name stays as it was, even if they were
    unknown. *)
Theorem false_values_are_not_stored (request_messages : list Framework.ChatMessage)
    (self : UserInfoMemory World) (v : UserInfo) (w' : World) :
  get_response request_messages (chat_client self) = (Ret {| value := UserInfoValue v |}, w') ->
  (age v = Some 0%Z ->
   age (user_info (snd (invoked request_messages self))) = age (user_info self))
  /\ (name v = Some EmptyString ->
      name (user_info (snd (invoked request_messages self))) = name (user_info self)).
Proof.
  intro Hget.
  destruct (invoked_spec get_response request_messages self) as [_ [E | [v' [Hv E]]]].
  - rewrite E. split; reflexivity.
  - rewrite Hget in Hv. simpl in Hv. injection Hv as <-.
    rewrite E. unfold absorb. simpl.
    split; intros ->; simpl; rewrite andb_false_r; reflexivity.
Qed.

(** X20. A memory that knows nothing learns both fields from one call:
    when the request holds a message of the user and the client extracts a
    non-empty name and a non-zero age, both are stored, the state of the
    client is the one its call left, and the next [invoking] states the
    two and asks for nothing. *)
Theorem memory_learns_both (request_messages messages : list Framework.ChatMessage)
    (w w' : World) (n : string) (a : Z) :
  filter is_user request_messages <> [] ->
  n <> EmptyString ->
  a <> 0%Z ->
  get_response request_messages w
    = (Ret {| value := UserInfoValue {| name := Some n; age := Some a |} |}, w') ->
  invoked request_messages
    {| chat_client := w; user_info := {| name := None; age := None |} |}
  = (Ret tt, {| chat_client := w'; user_info := {| name := Some n; age := Some a |} |})
  /\ fst (invoking messages
            {| chat_client := w'; user_info := {| name := Some n; age := Some a |} |})
     = Ret {| instructions := (state_name n ++ " " ++ state_age a)%string |}.
Proof.
  intros Hu Hn Ha Hget. split; [|reflexivity].
  unfold ContextProvider.invoked, bind, get. simpl.
  destruct (filter is_user request_messages) as [|m ms]; [congruence|]. simpl.
  unfold try_except, bind, call_get_response, zoom. simpl. rewrite Hget. simpl.
  unfold get, bind, set_name, set_age, modify, ret. simpl.
  destruct n as [|c n']; [congruence|]. simpl.
  destruct (Z.eqb_spec a 0) as [E|_]; [congruence|]. reflexivity.
Qed.

End MemoryLearning.

Section MemoryLearningExamples.

Import ContextProvider.

(** Nothing is extracted from a request without a message of the user. *)
Lemma invoked_skips_extraction_witness :
  ContextProvider.invoked StandIn.get_response
    [{| Framework.role := Framework.ASSISTANT; Framework.text := "I am Bob, 27" |}]
    StandIn.new_memory
  = (Ret tt, StandIn.new_memory).
Proof.
  exact (@invoked_skips_extraction unit StandIn.get_response
           [{| Framework.role := Framework.ASSISTANT; Framework.text := "I am Bob, 27" |}]
           StandIn.new_memory (or_intror eq_refl)).
Defined.

Lemma false_values_are_not_stored_witness :
  user_info (snd (ContextProvider.invoked StandIn.blank_response [StandIn.user "hello"]
                    StandIn.new_memory))
  = {| name := None; age := None |}.
Proof.
  destruct (@false_values_are_not_stored unit StandIn.blank_response [StandIn.user "hello"]
              StandIn.new_memory {| name := Some EmptyString; age := Some 0%Z |} tt eq_refl)
    as [Ha Hn].
  specialize (Ha eq_refl). specialize (Hn eq_refl).
  destruct (user_info (snd (ContextProvider.invoked StandIn.blank_response
                              [StandIn.user "hello"] StandIn.new_memory))) as [n a].
  simpl in Ha, Hn. now rewrite Ha, Hn.
Defined.

Lemma memory_learns_both_witness :
  ContextProvider.invoked StandIn.get_response [StandIn.user "I am Bob, 27"] StandIn.new_memory
  = (Ret tt, {| chat_client := tt;
                user_info := {| name := Some "Bob"%string; age := Some 27%Z |} |})
  /\ fst (ContextProvider.invoking [StandIn.user "What is the square root of 9?"]
            {| chat_client := tt;
               user_info := {| name := Some "Bob"%string; age := Some 27%Z |} |})
     = Ret {| instructions := (state_name "Bob" ++ " " ++ state_age 27)%string |}.
Proof.
  apply (@memory_learns_both unit StandIn.get_response [StandIn.user "I am Bob, 27"]
           [StandIn.user "What is the square root of 9?"] tt tt "Bob"%string 27%Z).
  - discriminate.
  - discriminate.
  - discriminate.
  - reflexivity.
Defined.

End MemoryLearningExamples.
